(** * Download orchestration of [main.py]: a shallow embedding

    The development follows the source file top-down: Python values
    (strings, numbers, exceptions), the format resolver
    ([build_format_string], [make_ydl_opts]), the progress handler
    ([progress_hook]), the worker ([downloader_worker]), and the
    consumer side ([on_start_download], [on_cancel_download],
    [append_log], [ui_pump]).  Theorems come after all definitions. *)

From Stdlib Require Import ZArith String Ascii List DecimalString Lia.
From Stdlib Require Import Floats.SpecFloat.
From stdpp Require Import base option gmap strings list.

Local Open Scope Z_scope.

(* ===================================================================== *)
(** ** Python strings *)
(* ===================================================================== *)

Module PyStr.

(** [sub in s]: substring test. *)
Fixpoint contains (sub s : string) : bool :=
  String.prefix sub s ||
  match s with
  | EmptyString => false
  | String _ s' => contains sub s'
  end.

(** [str(z)] for an [int]. *)
Definition of_Z (z : Z) : string := NilZero.string_of_int (Z.to_int z).

(** A Python [str] is represented by its UTF-8 encoding, one [ascii] per
    byte. *)
Definition byte (c : ascii) : Z := Z.of_nat (nat_of_ascii c).

(** The white space of [str.isspace] and [str.strip()], by the length of
    its encoding.  One byte: the code points 9-13 and 28-32. *)
Definition isspace (c : ascii) : bool :=
  let n := byte c in
  ((9 <=? n) && (n <=? 13)) || ((28 <=? n) && (n <=? 32)).

(** Two bytes: U+0085 (C2 85) and U+00A0 (C2 A0). *)
Definition isspace2 (a b : ascii) : bool :=
  (byte a =? 194) && ((byte b =? 133) || (byte b =? 160)).

(** Three bytes: U+1680 (E1 9A 80), U+2000-U+200A (E2 80 80-8A), U+2028,
    U+2029, U+202F (E2 80 A8, A9, AF), U+205F (E2 81 9F) and U+3000
    (E3 80 80). *)
Definition isspace3 (a b c : ascii) : bool :=
  let x := byte a in
  let y := byte b in
  let z := byte c in
  ((x =? 225) && (y =? 154) && (z =? 128))
  || ((x =? 226) && (y =? 128)
      && (((128 <=? z) && (z <=? 138)) || (z =? 168) || (z =? 169) || (z =? 175)))
  || ((x =? 226) && (y =? 129) && (z =? 159))
  || ((x =? 227) && (y =? 128) && (z =? 128)).

(** Drop the white space at the front of [l].  With [back] the list is a
    reversed string, so that an encoding is met last byte first. *)
Fixpoint strip_front (back : bool) (l : list ascii) : list ascii :=
  match l with
  | [] => []
  | a :: l1 =>
      if isspace a then strip_front back l1
      else
        match l1 with
        | [] => l
        | b :: l2 =>
            if (if back then isspace2 b a else isspace2 a b)
            then strip_front back l2
            else
              match l2 with
              | [] => l
              | c :: l3 =>
                  if (if back then isspace3 c b a else isspace3 a b c)
                  then strip_front back l3
                  else l
              end
        end
  end.

(** [s.strip()] *)
Definition strip (s : string) : string :=
  let l := strip_front false (list_ascii_of_string s) in
  string_of_list_ascii (rev (strip_front true (rev l))).

(** The encodings of the 29 white-space code points, as byte values. *)
Definition space_bytes : list (list Z) :=
  [ [9]; [10]; [11]; [12]; [13]; [28]; [29]; [30]; [31]; [32];
    [194; 133]; [194; 160];
    [225; 154; 128];
    [226; 128; 128]; [226; 128; 129]; [226; 128; 130]; [226; 128; 131];
    [226; 128; 132]; [226; 128; 133]; [226; 128; 134]; [226; 128; 135];
    [226; 128; 136]; [226; 128; 137]; [226; 128; 138];
    [226; 128; 168]; [226; 128; 169]; [226; 128; 175];
    [226; 129; 159];
    [227; 128; 128] ].

Definition of_bytes (l : list Z) : list ascii :=
  List.map (fun n => ascii_of_nat (Z.to_nat n)) l.

Definition space_encodings : list (list ascii) := List.map of_bytes space_bytes.

(** [bool(s)]: a string is truthy when it is not empty. *)
Definition truthy (s : string) : bool :=
  match s with EmptyString => false | _ => true end.

Definition zeros (n : nat) : string :=
  string_of_list_ascii (repeat "0"%char n).

(** Left-pad with ['0'] up to width [k]. *)
Definition zfill (k : nat) (s : string) : string :=
  zeros (k - String.length s) +:+ s.

End PyStr.

(* ===================================================================== *)
(** ** Python numbers: [int] and [float] *)
(* ===================================================================== *)

(** A Python [float] is an IEEE 754 binary64 value; the operations below
    are the Standard Library's executable specification at precision 53
    and maximal exponent 1024. *)
Abbreviation pyfloat := spec_float.

Module PyFloat.

Definition prec : Z := 53.
Definition emax : Z := 1024.

Definition of_Z_round (z : Z) : pyfloat := binary_normalize prec emax z 0 false.
Definition div : pyfloat -> pyfloat -> pyfloat := SFdiv prec emax.
Definition mul : pyfloat -> pyfloat -> pyfloat := SFmul prec emax.
Definition sub : pyfloat -> pyfloat -> pyfloat := SFsub prec emax.
Definition ltb : pyfloat -> pyfloat -> bool := SFltb.
Definition leb : pyfloat -> pyfloat -> bool := SFleb.

(** The literals of the source. *)
Definition zero : pyfloat := S754_zero false.                 (* 0.0 *)
Definition one : pyfloat := Eval cbv in of_Z_round 1.         (* 1.0 *)
Definition hundred : pyfloat := Eval cbv in of_Z_round 100.
(** [0.15]: the double nearest to 15/100. *)
Definition throttle : pyfloat :=
  Eval cbv in div (of_Z_round 15) (of_Z_round 100).
(** [0.25] = 2^52 * 2^-54 and [1.5] = 3 * 2^51 * 2^-52. *)
Definition quarter : pyfloat := S754_finite false 4503599627370496 (-54).
Definition three_halves : pyfloat := S754_finite false 6755399441055744 (-52).

Definition is_zero (x : pyfloat) : bool :=
  match x with S754_zero _ => true | _ => false end.
Definition is_inf (x : pyfloat) : bool :=
  match x with S754_infinity _ => true | _ => false end.

(** [bool(x)]: only the two zeros are falsy (a NaN is truthy). *)
Definition truthy (x : pyfloat) : bool := negb (is_zero x).

(** Rounding of a non-negative quotient [n/d] to the nearest integer,
    ties to even. *)
Definition round_half_even (n d : Z) : Z :=
  let q := n / d in
  let r := n mod d in
  match 2 * r ?= d with
  | Lt => q
  | Gt => q + 1
  | Eq => if Z.even q then q else q + 1
  end.

(** [round(m * 2^e * 10^k)] as an integer. *)
Definition scaled (k : nat) (m : positive) (e : Z) : Z :=
  let n := Zpos m * 10 ^ Z.of_nat k in
  if 0 <=? e then n * 2 ^ e else round_half_even n (2 ^ (- e)).

Definition sign (s : bool) : string := if s then "-" else "".

Definition fixed (k : nat) (n : Z) : string :=
  let p := 10 ^ Z.of_nat k in
  match k with
  | O => PyStr.of_Z n
  | _ => PyStr.of_Z (n / p) +:+ "." +:+ PyStr.zfill k (PyStr.of_Z (n mod p))
  end.

(** [f"{x:.kf}"]: fixed-point notation with [k] decimals, the exact
    binary value correctly rounded (ties to even). *)
Definition format_f (k : nat) (x : pyfloat) : string :=
  match x with
  | S754_nan => "nan"
  | S754_infinity s => sign s +:+ "inf"
  | S754_zero s => sign s +:+ fixed k 0
  | S754_finite s m e => sign s +:+ fixed k (scaled k m e)
  end.

End PyFloat.

(* ===================================================================== *)
(** ** Exceptions and results *)
(* ===================================================================== *)

(** Instances of [Exception], split the way the worker's handlers split
    them: [yt_dlp.utils.DownloadError], or any other class [cls].  The
    text is what [str(e)] returns. *)
Inductive exn : Type :=
  | DownloadError (msg : string)
  | PyException (cls : string) (msg : string).

Inductive pyres (A : Type) : Type :=
  | Ok (a : A)
  | Raise (e : exn).
Arguments Ok {A} a.
Arguments Raise {A} e.

(** A number found in a status record: [int] or [float]. *)
Inductive num : Type :=
  | NInt (z : Z)
  | NFloat (x : pyfloat).

Module PyNum.

(** [bool(x)] *)
Definition truthy (x : num) : bool :=
  match x with
  | NInt z => negb (z =? 0)
  | NFloat f => PyFloat.truthy f
  end.

(** [a or b] where [a] comes from [dict.get] ([None] is falsy). *)
Definition or_else (a : option num) (b : num) : num :=
  match a with
  | Some x => if truthy x then x else b
  | None => b
  end.

(** [str(z)], as CPython 3.11 and later convert: [ValueError] for more
    than 4300 decimal digits. *)
Definition to_str (z : Z) : pyres string :=
  if Z.abs z <? 10 ^ 4300 then Ok (PyStr.of_Z z)
  else Raise (PyException "ValueError"
    "Exceeds the limit (4300 digits) for integer string conversion; use sys.set_int_max_str_digits() to increase the limit").

(** [float(z)]: correctly rounded; [OverflowError] beyond the range of
    a double. *)
Definition to_float (z : Z) : pyres pyfloat :=
  let f := PyFloat.of_Z_round z in
  if PyFloat.is_inf f
  then Raise (PyException "OverflowError" "int too large to convert to float")
  else Ok f.

(** An [int] as an exact, unnormalised significand with exponent 0. *)
Definition exact (z : Z) : pyfloat :=
  match z with
  | Z0 => S754_zero false
  | Zpos p => S754_finite false p 0
  | Zneg p => S754_finite true p 0
  end.

Definition float_truediv (x y : pyfloat) : pyres pyfloat :=
  if PyFloat.is_zero y
  then Raise (PyException "ZeroDivisionError" "float division by zero")
  else Ok (PyFloat.div x y).

(** [a / b].  On two [int]s the exact quotient is rounded once. *)
Definition truediv (a b : num) : pyres pyfloat :=
  match a, b with
  | NInt x, NInt y =>
      if y =? 0 then Raise (PyException "ZeroDivisionError" "division by zero")
      else
        let f := PyFloat.div (exact x) (exact y) in
        if PyFloat.is_inf f
        then Raise (PyException "OverflowError"
                      "integer division result too large for a float")
        else Ok f
  | NInt x, NFloat g =>
      match to_float x with
      | Ok f => float_truediv f g
      | Raise e => Raise e
      end
  | NFloat f, NInt y =>
      match to_float y with
      | Ok g => float_truediv f g
      | Raise e => Raise e
      end
  | NFloat f, NFloat g => float_truediv f g
  end.

End PyNum.

(* ===================================================================== *)
(** ** Global state *)
(* ===================================================================== *)

(** What travels on [ui_update_queue]: [("log", {"text": t})],
    [("progress", {"percent": p, "text": t})], [("done", {"ok": b})]. *)
Inductive event : Type :=
  | Log (text : string)
  | Progress (percent : pyfloat) (text : string)
  | Done (ok : bool).

(** The arguments a worker thread is started with. *)
Record worker_args : Type := WorkerArgs {
  arg_url : string;
  arg_out_dir : string;
  arg_out_type : string;
  arg_quality : string
}.

(** The Dear PyGui items the callbacks read and write, named after
    their tags. *)
Record dpg_items : Type := DpgItems {
  url_input : string;
  type_combo : string;
  quality_combo : string;
  output_text : string;
  log_box : string;
  progress_bar : pyfloat;
  progress_bar_overlay : string;
  start_btn_enabled : bool;
  cancel_btn_enabled : bool
}.

(** The host ([shutil.which], [os.path.isdir]), the module's globals,
    the threads started so far, and the widgets. *)
Record world : Type := World {
  host_which : string -> option string;
  host_isdir : string -> bool;
  ui_update_queue : list event;
  download_thread : option worker_args;
  cancel_event : bool;
  last_pump_time : pyfloat;
  started_threads : list worker_args;
  dpg : dpg_items
}.

Definition set_queue (q : list event) (w : world) : world :=
  World (host_which w) (host_isdir w) q (download_thread w) (cancel_event w)
        (last_pump_time w) (started_threads w) (dpg w).

Definition set_cancel_event (b : bool) (w : world) : world :=
  World (host_which w) (host_isdir w) (ui_update_queue w) (download_thread w) b
        (last_pump_time w) (started_threads w) (dpg w).

Definition set_last_pump_time (t : pyfloat) (w : world) : world :=
  World (host_which w) (host_isdir w) (ui_update_queue w) (download_thread w)
        (cancel_event w) t (started_threads w) (dpg w).

Definition set_dpg (g : dpg_items) (w : world) : world :=
  World (host_which w) (host_isdir w) (ui_update_queue w) (download_thread w)
        (cancel_event w) (last_pump_time w) (started_threads w) g.

(** [Thread(target=downloader_worker, args=a).start()], the thread object
    stored in the global [download_thread]. *)
Definition start_thread (a : worker_args) (w : world) : world :=
  World (host_which w) (host_isdir w) (ui_update_queue w) (Some a)
        (cancel_event w) (last_pump_time w) (started_threads w ++ [a]) (dpg w).

Definition set_log_box (s : string) (g : dpg_items) : dpg_items :=
  DpgItems (url_input g) (type_combo g) (quality_combo g) (output_text g) s
           (progress_bar g) (progress_bar_overlay g)
           (start_btn_enabled g) (cancel_btn_enabled g).

Definition set_progress_bar (p : pyfloat) (g : dpg_items) : dpg_items :=
  DpgItems (url_input g) (type_combo g) (quality_combo g) (output_text g)
           (log_box g) p (progress_bar_overlay g)
           (start_btn_enabled g) (cancel_btn_enabled g).

Definition set_progress_bar_overlay (s : string) (g : dpg_items) : dpg_items :=
  DpgItems (url_input g) (type_combo g) (quality_combo g) (output_text g)
           (log_box g) (progress_bar g) s
           (start_btn_enabled g) (cancel_btn_enabled g).

Definition set_start_btn_enabled (b : bool) (g : dpg_items) : dpg_items :=
  DpgItems (url_input g) (type_combo g) (quality_combo g) (output_text g)
           (log_box g) (progress_bar g) (progress_bar_overlay g)
           b (cancel_btn_enabled g).

Definition set_cancel_btn_enabled (b : bool) (g : dpg_items) : dpg_items :=
  DpgItems (url_input g) (type_combo g) (quality_combo g) (output_text g)
           (log_box g) (progress_bar g) (progress_bar_overlay g)
           (start_btn_enabled g) b.

(* ===================================================================== *)
(** ** The monad of the worker thread: state and exceptions *)
(* ===================================================================== *)

Definition M (A : Type) : Type := world -> world * pyres A.

Definition ret {A} (a : A) : M A := fun w => (w, Ok a).

Definition bind {A B} (m : M A) (k : A -> M B) : M B :=
  fun w =>
    match m w with
    | (w', Ok a) => k a w'
    | (w', Raise e) => (w', Raise e)
    end.

Definition raise {A} (e : exn) : M A := fun w => (w, Raise e).

(** [try: body  except Exception as e: handler e]; what the body did to
    the state before raising stays done. *)
Definition try_except {A} (body : M A) (handler : exn -> M A) : M A :=
  fun w =>
    match body w with
    | (w', Ok a) => (w', Ok a)
    | (w', Raise e) => handler e w'
    end.

(** Lift a pure result into the monad. *)
Definition lift_res {A} (r : pyres A) : M A := fun w => (w, r).

(** Run a state change that cannot raise. *)
Definition modify (f : world -> world) : M unit := fun w => (f w, Ok tt).

(** stdpp's monad notations: [x ← m; k] and [m;; k]. *)
#[global] Instance M_ret : MRet M := @ret.
#[global] Instance M_bind : MBind M := fun A B k m => bind m k.

(** [ui_update_queue.put(e)] on the unbounded queue. *)
Definition queue_put (e : event) : M unit :=
  modify (fun w => set_queue (ui_update_queue w ++ [e]) w).

(** [cancel_event.is_set()] *)
Definition cancel_is_set : M bool := fun w => (w, Ok (cancel_event w)).

#[global] Instance pyres_ret : MRet pyres := @Ok.
#[global] Instance pyres_bind : MBind pyres := fun A B k r =>
  match r with
  | Ok a => k a
  | Raise e => Raise e
  end.

(* ===================================================================== *)
(** ** The format resolver *)
(* ===================================================================== *)

(** Callables stored in the option bundle. *)
Inductive hook_ref : Type := progress_hook_ref.

(** Values of the option bundle handed to [yt_dlp.YoutubeDL]. *)
Inductive optval : Type :=
  | VBool (b : bool)
  | VInt (z : Z)
  | VStr (s : string)
  | VHooks (hs : list hook_ref)
  | VPostprocessors (ps : list (gmap string string)).

(** [shutil.which("ffmpeg") is not None] *)
Definition is_ffmpeg_available : M bool :=
  fun w => (w, Ok (bool_decide (is_Some (host_which w "ffmpeg")))).

Definition quality_heights : gmap string (option Z) :=
  list_to_map
    [ ("Best", None); ("1080p", Some 1080); ("720p", Some 720);
      ("480p", Some 480); ("360p", Some 360); ("Audio only", None) ].

(** [quality_heights.get(video_quality)]: [None] for a missing key too. *)
Definition max_height (video_quality : string) : option Z :=
  default None (quality_heights !! video_quality).

Definition build_format_string (video_quality : string)
    (force_mp4 have_ffmpeg : bool) : string * gmap string optval :=
  let extra_opts : gmap string optval := ∅ in
  let max_h := max_height video_quality in
  if String.eqb video_quality "Audio only" then ("bestaudio/best", extra_opts)
  else if force_mp4 then
    let v_sel :=
      match max_h with
      | None => "bestvideo[ext=mp4]"
      | Some h => "bestvideo[ext=mp4][height<=" +:+ PyStr.of_Z h +:+ "]"
      end in
    let a_sel := "bestaudio[ext=m4a]" in
    let fmt := v_sel +:+ "+" +:+ a_sel +:+ "/best[ext=mp4]" in
    if negb have_ffmpeg then
      let fmt :=
        match max_h with
        | None => "best[ext=mp4]/best"
        | Some h => "best[ext=mp4][height<=" +:+ PyStr.of_Z h +:+ "]/best"
        end in
      (fmt, extra_opts)
    else (fmt, <["merge_output_format" := VStr "mp4"]> extra_opts)
  else
    match max_h with
    | None => ("bestvideo+bestaudio/best", extra_opts)
    | Some h =>
        ("bestvideo[height<=" +:+ PyStr.of_Z h +:+ "]+bestaudio/best[height<="
           +:+ PyStr.of_Z h +:+ "]", extra_opts)
    end.

Definition ends_with_slash (s : string) : bool :=
  match rev (list_ascii_of_string s) with
  | c :: _ => Ascii.eqb c "/"
  | [] => false
  end.

(** [os.path.join(a, b)] of [posixpath], for a relative [b]. *)
Definition path_join (a b : string) : string :=
  if negb (PyStr.truthy a) || ends_with_slash a then a +:+ b
  else a +:+ "/" +:+ b.

Definition mp3_postprocessor : gmap string string :=
  list_to_map
    [ ("key", "FFmpegExtractAudio"); ("preferredcodec", "mp3");
      ("preferredquality", "0") ].

Definition base_ydl_opts (out_dir : string) : gmap string optval :=
  list_to_map
    [ ("quiet", VBool true);
      ("no_warnings", VBool true);
      ("progress_hooks", VHooks [progress_hook_ref]);
      ("outtmpl", VStr (path_join out_dir "%(title)s-%(id)s.%(ext)s"));
      ("noprogress", VBool true);
      ("continuedl", VBool true);
      ("consoletitle", VBool false);
      ("socket_timeout", VInt 30);
      ("retries", VInt 3);
      ("fragment_retries", VInt 3);
      ("http_chunk_size", VInt 10485760) ].

Definition make_ydl_opts (url out_dir out_type quality : string)
    : M (gmap string optval) :=
  have_ffmpeg ← is_ffmpeg_available;
  let ydl_opts := base_ydl_opts out_dir in
  if String.eqb out_type "Video (MP4)" then
    let '(fmt, extra) := build_format_string quality true have_ffmpeg in
    let ydl_opts := extra ∪ ydl_opts in
    let ydl_opts := <["format" := VStr fmt]> ydl_opts in
    if negb have_ffmpeg && PyStr.contains "+" fmt then
      queue_put (Log "FFmpeg not found; falling back to single-file MP4 if possible.");;
      mret ydl_opts
    else mret ydl_opts
  else if String.eqb out_type "Audio (MP3)" then
    let ydl_opts := <["format" := VStr "bestaudio/best"]> ydl_opts in
    if have_ffmpeg then
      mret (<["postprocessors" := VPostprocessors [mp3_postprocessor]]> ydl_opts)
    else
      queue_put (Log "FFmpeg not found; saving best audio without MP3 conversion.");;
      mret ydl_opts
  else if String.eqb out_type "Best (Original)" then
    let '(fmt, extra) := build_format_string quality false have_ffmpeg in
    let ydl_opts := extra ∪ ydl_opts in
    mret (<["format" := VStr fmt]> ydl_opts)
  else
    mret (<["format" := VStr "bestvideo+bestaudio/best"]> ydl_opts).

(* ===================================================================== *)
(** ** The progress handler *)
(* ===================================================================== *)

(** The status record the collaborator passes to a progress hook; a
    missing key and a [None] value read the same through [d.get].
    [eta] is in whole seconds. *)
Record status_dict : Type := StatusDict {
  st_status : option string;
  st_total_bytes : option num;
  st_total_bytes_estimate : option num;
  st_downloaded_bytes : option num;
  st_speed : option num;
  st_eta : option Z;
  st_filename : option string
}.

(** Numbers as transfers report them: any [float], or an [int] of
    magnitude below 2^64. *)
Definition fits_64 (n : num) : Prop :=
  match n with
  | NInt z => Z.abs z < 2 ^ 64
  | NFloat _ => True
  end.

Definition opt_fits_64 (o : option num) : Prop :=
  match o with
  | Some n => fits_64 n
  | None => True
  end.

Definition record_fits_64 (d : status_dict) : Prop :=
  opt_fits_64 (st_total_bytes d) ∧ opt_fits_64 (st_total_bytes_estimate d)
  ∧ opt_fits_64 (st_downloaded_bytes d) ∧ opt_fits_64 (st_speed d)
  ∧ opt_fits_64 (option_map NInt (st_eta d)).

(** [status == s] *)
Definition status_is (status : option string) (s : string) : bool :=
  match status with
  | Some t => String.eqb t s
  | None => false
  end.

(** [total = d.get("total_bytes") or d.get("total_bytes_estimate") or 0] *)
Definition hook_total (d : status_dict) : num :=
  PyNum.or_else (st_total_bytes d)
    (PyNum.or_else (st_total_bytes_estimate d) (NInt 0)).

(** [downloaded = d.get("downloaded_bytes") or 0] *)
Definition hook_downloaded (d : status_dict) : num :=
  PyNum.or_else (st_downloaded_bytes d) (NInt 0).

Definition hook_percent (d : status_dict) : pyres pyfloat :=
  let total := hook_total d in
  let downloaded := hook_downloaded d in
  let percent := PyFloat.zero in
  if PyNum.truthy total && PyNum.truthy downloaded
  then PyNum.truediv downloaded total
  else Ok percent.

(** [f" | {speed/1024/1024:.2f} MB/s" if speed else ""] *)
Definition hook_speed_text (speed : option num) : pyres string :=
  match speed with
  | Some s =>
      if PyNum.truthy s then
        kib ← PyNum.truediv s (NInt 1024);
        mib ← PyNum.truediv (NFloat kib) (NInt 1024);
        mret (" | " +:+ PyFloat.format_f 2 mib +:+ " MB/s")
      else mret ""
  | None => mret ""
  end.

(** [f" | ETA: {eta}s" if eta else ""] *)
Definition hook_eta_text (eta : option Z) : pyres string :=
  match eta with
  | Some n =>
      if negb (n =? 0) then
        digits ← PyNum.to_str n;
        mret (" | ETA: " +:+ digits +:+ "s")
      else mret ""
  | None => mret ""
  end.

Definition hook_text (percent : pyfloat) (d : status_dict) : pyres string :=
  let head :=
    "Downloading... "
      +:+ PyFloat.format_f 1 (PyFloat.mul percent PyFloat.hundred) +:+ "%" in
  sp ← hook_speed_text (st_speed d);
  et ← hook_eta_text (st_eta d);
  mret (head +:+ sp +:+ et).

Definition progress_hook (d : status_dict) : M unit :=
  c ← cancel_is_set;
  if (c : bool) then raise (DownloadError "Cancelled by user")
  else
    let status := st_status d in
    if status_is status "downloading" then
      percent ← lift_res (hook_percent d);
      text ← lift_res (hook_text percent d);
      queue_put (Progress percent text)
    else if status_is status "finished" then
      let filename :=
        match st_filename d with
        | Some f => if PyStr.truthy f then f else ""
        | None => ""
        end in
      queue_put (Log ("Downloaded to: " +:+ filename));;
      queue_put (Progress PyFloat.one "Download finished")
    else mret tt.

(* ===================================================================== *)
(** ** The consumer side: widget callbacks and the pump *)
(* ===================================================================== *)

Definition append_log (text : string) (w : world) : world :=
  let prev := log_box (dpg w) in
  let new_val :=
    (if PyStr.truthy prev then prev +:+ String "010"%char EmptyString else "")
      +:+ text in
  set_dpg (set_log_box new_val (dpg w)) w.

Definition on_start_download (w : world) : world :=
  let url := PyStr.strip (url_input (dpg w)) in
  let out_type := type_combo (dpg w) in
  let quality := quality_combo (dpg w) in
  let out_dir := PyStr.strip (output_text (dpg w)) in
  if negb (PyStr.truthy url) then append_log "Please enter a URL." w
  else if negb (PyStr.truthy out_dir) then
    append_log "Please choose an output folder." w
  else if negb (host_isdir w out_dir) then
    append_log "Output folder does not exist." w
  else
    (* Reset state *)
    let w := set_cancel_event false w in
    let w := set_dpg (set_start_btn_enabled false (dpg w)) w in
    let w := set_dpg (set_cancel_btn_enabled true (dpg w)) w in
    let w := set_dpg (set_progress_bar PyFloat.zero (dpg w)) w in
    let w := set_dpg (set_progress_bar_overlay "Waiting..." (dpg w)) w in
    (* Launch worker *)
    start_thread (WorkerArgs url out_dir out_type quality) w.

Definition on_cancel_download (w : world) : world :=
  let w := set_cancel_event true w in
  append_log "Cancelling..." w.

(** The two-argument builtins: [min(a, b)] keeps [a] unless [b < a],
    [max(a, b)] keeps [a] unless [b > a]. *)
Definition py_min (a b : pyfloat) : pyfloat := if PyFloat.ltb b a then b else a.
Definition py_max (a b : pyfloat) : pyfloat := if PyFloat.ltb a b then b else a.

(** [0.0 <= x <= 1.0] (false for a NaN). *)
Definition in_unit_interval (x : pyfloat) : Prop :=
  PyFloat.leb PyFloat.zero x = true ∧ PyFloat.leb x PyFloat.one = true.

(** The body of the drain loop, for one dequeued event. *)
Definition apply_event (w : world) (e : event) : world :=
  match e with
  | Log text => append_log text w
  | Progress percent text =>
      let pct := py_max PyFloat.zero (py_min PyFloat.one percent) in
      let txt := text in
      let w := set_dpg (set_progress_bar pct (dpg w)) w in
      set_dpg (set_progress_bar_overlay txt (dpg w)) w
  | Done ok =>
      let w := if ok then append_log "All tasks completed." w else w in
      let w := set_dpg (set_start_btn_enabled true (dpg w)) w in
      set_dpg (set_cancel_btn_enabled false (dpg w)) w
  end.

(** [ui_pump], with [now] the reading of [time.perf_counter()].  The loop
    dequeues until [queue.Empty]: every queued event is applied in
    arrival order and the queue is left empty. *)
Definition ui_pump (now : pyfloat) (w : world) : world :=
  if PyFloat.ltb (PyFloat.sub now (last_pump_time w)) PyFloat.throttle then w
  else
    let w := set_last_pump_time now w in
    fold_left apply_event (ui_update_queue w) (set_queue [] w).

(* ===================================================================== *)
(** ** The fetch collaborator and the worker *)
(* ===================================================================== *)

(** What happens while [ydl.download] runs, as seen from this module:
    the collaborator calls the registered progress hooks with a status
    record, or meanwhile the user presses Cancel on the consumer thread. *)
Inductive transfer_step : Type :=
  | Callback (d : status_dict)
  | CancelPressed.

(** One run of [yt_dlp.YoutubeDL(opts).download([url])]: the steps, in
    order, and how the call ends when no hook raised: it returns, or it
    raises an exception of its own.  An exception raised by a hook is
    fatal to the transfer and comes out of [download] unchanged. *)
Record collaborator : Type := Collaborator {
  transfer : list transfer_step;
  outcome : pyres unit
}.

Definition call_hook (h : hook_ref) (d : status_dict) : M unit :=
  match h with
  | progress_hook_ref => progress_hook d
  end.

Fixpoint call_hooks (hs : list hook_ref) (d : status_dict) : M unit :=
  match hs with
  | [] => mret tt
  | h :: hs' => call_hook h d;; call_hooks hs' d
  end.

Definition registered_hooks (ydl_opts : gmap string optval) : list hook_ref :=
  match ydl_opts !! "progress_hooks" with
  | Some (VHooks hs) => hs
  | _ => []
  end.

Fixpoint run_transfer (hs : list hook_ref) (steps : list transfer_step) : M unit :=
  match steps with
  | [] => mret tt
  | Callback d :: rest => call_hooks hs d;; run_transfer hs rest
  | CancelPressed :: rest => modify on_cancel_download;; run_transfer hs rest
  end.

Definition ydl_download (ydl : collaborator) (ydl_opts : gmap string optval)
    (urls : list string) : M unit :=
  run_transfer (registered_hooks ydl_opts) (transfer ydl);;
  lift_res (outcome ydl).

Definition downloader_worker (ydl : collaborator)
    (url out_dir out_type quality : string) : M unit :=
  try_except
    (ydl_opts ← make_ydl_opts url out_dir out_type quality;
     queue_put (Log ("Starting: " +:+ url));;
     ydl_download ydl ydl_opts [url];;
     queue_put (Done true))
    (fun e =>
       match e with
       | DownloadError msg =>
           queue_put (Log ("Cancelled: " +:+ msg));;
           queue_put (Done false)
       | PyException _ msg =>
           queue_put (Log ("Error: " +:+ msg));;
           queue_put (Done false)
       end).

(** The [try] body of [downloader_worker] up to and including the call
    of [ydl.download], that is, everything before the final [put]. *)
Definition worker_fetch (ydl : collaborator)
    (url out_dir out_type quality : string) : M unit :=
  ydl_opts ← make_ydl_opts url out_dir out_type quality;
  queue_put (Log ("Starting: " +:+ url));;
  ydl_download ydl ydl_opts [url].

Definition is_ok {A} (r : pyres A) : bool :=
  match r with Ok _ => true | Raise _ => false end.

Definition is_done (e : event) : bool :=
  match e with Done _ => true | _ => false end.

(** Number of terminal events in a run of events. *)
Definition count_done (evs : list event) : nat :=
  length (List.filter is_done evs).

(** The queue of [w'] is the queue of [w] followed by events none of
    which is terminal. *)
Definition grows_without_done (w w' : world) : Prop :=
  exists evs : list event,
    ui_update_queue w' = ui_update_queue w ++ evs ∧ count_done evs = 0%nat.

(** A computation that never enqueues a terminal event. *)
Definition quiet {A} (m : M A) : Prop :=
  forall w : world, grows_without_done w (m w).1.

(* ===================================================================== *)
(** ** Sample states and inputs *)
(* ===================================================================== *)

Module Sample.

(** The window as [build_ui] creates it, with a URL typed in. *)
Definition items : dpg_items :=
  DpgItems "https://www.youtube.com/watch?v=abc" "Video (MP4)" "Best"
           "/home/user/Downloads" "" PyFloat.zero "Idle" true false.

Definition isdir (p : string) : bool := String.eqb p "/home/user/Downloads".

(** A host without ffmpeg on the search path. *)
Definition bare : world :=
  World (fun _ => None) isdir [] None false PyFloat.zero [] items.

(** A host with ffmpeg installed. *)
Definition equipped : world :=
  World (fun c => if String.eqb c "ffmpeg" then Some "/usr/bin/ffmpeg" else None)
        isdir [] None false PyFloat.zero [] items.

(** The user never typed a URL. *)
Definition no_url : world :=
  set_dpg (DpgItems "" "Video (MP4)" "Best" "/home/user/Downloads" ""
                    PyFloat.zero "Idle" true false) bare.

(** The output folder was removed after it was picked. *)
Definition missing_dir : world :=
  set_dpg (DpgItems "https://www.youtube.com/watch?v=abc" "Video (MP4)" "Best"
                    "/mnt/gone" "" PyFloat.zero "Idle" true false) bare.

(** A transfer is running and Cancel has been pressed. *)
Definition cancelling : world := on_cancel_download bare.

(** 50 of 200 bytes received. *)
Definition quarter : status_dict :=
  StatusDict (Some "downloading") (Some (NInt 200)) None (Some (NInt 50))
             None None None.

(** More bytes received than announced. *)
Definition overshoot : status_dict :=
  StatusDict (Some "downloading") (Some (NInt 200)) None (Some (NInt 300))
             None None None.

(** A status the handler does not know. *)
Definition postprocessing : status_dict :=
  StatusDict (Some "error") None None None None None None.

(** The collaborator fails on its own, before any callback. *)
Definition unavailable : collaborator :=
  Collaborator [] (Raise (DownloadError "ERROR: Video unavailable")).

End Sample.

(* ===================================================================== *)
(** ** The remaining callbacks and helpers *)
(* ===================================================================== *)

Definition set_output_text (s : string) (g : dpg_items) : dpg_items :=
  DpgItems (url_input g) (type_combo g) (quality_combo g) s (log_box g)
           (progress_bar g) (progress_bar_overlay g)
           (start_btn_enabled g) (cancel_btn_enabled g).

(** [on_pick_dir(_, data)], with [file_path_name] the value of
    [data.get("file_path_name")]. *)
Definition on_pick_dir (file_path_name : option string) (w : world) : world :=
  match file_path_name with
  | Some path =>
      if PyStr.truthy path then set_dpg (set_output_text path (dpg w)) w else w
  | None => w
  end.

(** [default_downloads_dir()], with [home] the value of
    [os.path.expanduser("~")] and [cwd] the value of [os.getcwd()]. *)
Definition default_downloads_dir (home cwd : string) (w : world) : string :=
  let candidates :=
    [path_join home "Downloads"; path_join home "downloads"; home] in
  match List.find (host_isdir w) candidates with
  | Some p => p
  | None => cwd
  end.

(** The request passes the three checks of [on_start_download]. *)
Definition request_valid (w : world) : Prop :=
  PyStr.truthy (PyStr.strip (url_input (dpg w))) = true
  ∧ PyStr.truthy (PyStr.strip (output_text (dpg w))) = true
  ∧ host_isdir w (PyStr.strip (output_text (dpg w))) = true.

(** The arguments [on_start_download] hands to the worker. *)
Definition request_args (w : world) : worker_args :=
  WorkerArgs (PyStr.strip (url_input (dpg w))) (PyStr.strip (output_text (dpg w)))
             (type_combo (dpg w)) (quality_combo (dpg w)).

(** Exactly one of the Start and Cancel buttons is enabled. *)
Definition buttons_exclusive (w : world) : Prop :=
  start_btn_enabled (dpg w) = negb (cancel_btn_enabled (dpg w)).

Definition is_callback (s : transfer_step) : bool :=
  match s with Callback _ => true | CancelPressed => false end.

(** No Cancel is pressed during the transfer. *)
Definition undisturbed (steps : list transfer_step) : Prop :=
  Forall (fun s => is_callback s = true) steps.

(** Every status record of the transfer carries numbers in range. *)
Definition transfer_fits (steps : list transfer_step) : Prop :=
  Forall (fun s => match s with
                   | Callback d => record_fits_64 d
                   | CancelPressed => True
                   end) steps.

(** The notice of the [Audio (MP3)] branch. *)
Definition audio_notice : event :=
  Log "FFmpeg not found; saving best audio without MP3 conversion.".

(** [bool(x)] for a value read with [d.get]: [None] is falsy. *)
Definition opt_truthy (o : option num) : bool :=
  match o with
  | Some x => PyNum.truthy x
  | None => false
  end.

(** The events that close a worker run, by the way [ydl.download] ended. *)
Definition closing_events (r : pyres unit) : list event :=
  match r with
  | Ok _ => [Done true]
  | Raise (DownloadError msg) => [Log ("Cancelled: " +:+ msg); Done false]
  | Raise (PyException _ msg) => [Log ("Error: " +:+ msg); Done false]
  end.

(** The drain of one tick: what [ui_pump] does to the queued events once
    the throttle has let it through. *)
Definition drain (evs : list event) (w : world) : world :=
  fold_left apply_event evs w.

(** The worker thread (or its hooks) put [evs] on the queue. *)
Definition enqueue (evs : list event) (w : world) : world :=
  set_queue (ui_update_queue w ++ evs) w.

(** The throttle lets a call at time [now] through. *)
Definition pump_due (now : pyfloat) (w : world) : Prop :=
  PyFloat.ltb (PyFloat.sub now (last_pump_time w)) PyFloat.throttle = false.

(** What a worker run may not change: everything except the queue, the
    flag and the log box (the latter two move only when Cancel is
    pressed on the consumer thread). *)
Definition worker_frame (w w' : world) : Prop :=
  download_thread w' = download_thread w
  ∧ started_threads w' = started_threads w
  ∧ last_pump_time w' = last_pump_time w
  ∧ set_log_box "" (dpg w') = set_log_box "" (dpg w).

(** The computation [m] relates every state to the state it leaves, by
    [R]. *)
Definition keeps (R : world -> world -> Prop) {A} (m : M A) : Prop :=
  forall w : world, R w (m w).1.

(** The log box only grows at its end. *)
Definition log_extends (w w' : world) : Prop :=
  String.prefix (log_box (dpg w)) (log_box (dpg w')) = true.

(** Strings made of white space only: a run of encoded white-space code
    points. *)
Definition blank (s : string) : Prop :=
  exists run : list (list ascii),
    Forall (fun enc => enc ∈ PyStr.space_encodings) run
    ∧ list_ascii_of_string s = concat run.

Module Scenario.

(** A record with only a status, as yt-dlp sends before sizes are known. *)
Definition unsized : status_dict :=
  StatusDict (Some "downloading") None None None None None None.

(** The file is complete. *)
Definition finished : status_dict :=
  StatusDict (Some "finished") (Some (NInt 200)) None (Some (NInt 200))
             None None (Some "/home/user/Downloads/clip-abc.mp4").

(** A transfer that reports progress and returns. *)
Definition smooth : collaborator :=
  Collaborator [Callback Sample.quarter; Callback finished] (Ok tt).

(** The user cancels after the first progress report. *)
Definition cancelled : collaborator :=
  Collaborator [Callback Sample.quarter; CancelPressed; Callback Sample.quarter;
                Callback finished] (Ok tt).

(** The network fails after the first progress report. *)
Definition broken : collaborator :=
  Collaborator [Callback Sample.quarter]
               (Raise (PyException "OSError" "connection reset")).

(** A no-break space (U+00A0), a tab, an ideographic space (U+3000). *)
Definition blanks : string :=
  string_of_list_ascii
    (PyStr.of_bytes [194; 160] ++ PyStr.of_bytes [9] ++ PyStr.of_bytes [227; 128; 128]).

(** The user typed only blanks into the URL field. *)
Definition blank_url : world :=
  set_dpg (DpgItems blanks "Video (MP4)" "Best" "/home/user/Downloads" ""
                    PyFloat.zero "Idle" true false) Sample.bare.

(** The picked folder is followed by a no-break space. *)
Definition padded_folder : string :=
  "/home/user/Downloads" +:+ string_of_list_ascii (PyStr.of_bytes [194; 160]).

(** A valid request on a host with ffmpeg. *)
Definition ready : world := Sample.equipped.

(** The pump last ran at time 0; one second later it is due, and again
    one second after that. *)
Definition later : pyfloat := PyFloat.one.
Definition much_later : pyfloat := Eval cbv in PyFloat.of_Z_round 2.

(** A home directory with a lower-case [downloads] folder only. *)
Definition lowercase_home : world :=
  World (fun _ => None)
        (fun p => String.eqb p "/home/user/downloads" || String.eqb p "/home/user")
        [] None false PyFloat.zero [] Sample.items.

End Scenario.

(* ===================================================================== *)
(** * Properties *)
(* ===================================================================== *)

(** ** Strings *)

(** Membership in an explicit list. *)
Ltac in_list :=
  repeat first [apply list_elem_of_here | apply list_elem_of_further].

Lemma prefix_app (s t : string) : String.prefix s (s +:+ t) = true.
Proof.
  induction s as [|c s IH]; simpl.
  - now destruct t.
  - destruct (ascii_dec c c) as [_|Hne]; [exact IH | now elim Hne].
Qed.




(** ** The format resolver *)

(** The only height caps the table can produce. *)
Lemma max_height_cases (q : string) :
  max_height q ∈ [None; Some 1080; Some 720; Some 480; Some 360].
Proof.
  assert (Hall : map_Forall
            (fun (_ : string) (v : option Z) =>
               v ∈ [None; Some 1080; Some 720; Some 480; Some 360])
            quality_heights).
  { unfold quality_heights. cbn [list_to_map foldr uncurry fst snd].
    repeat (apply map_Forall_insert_2; [set_solver|]).
    apply map_Forall_empty. }
  unfold max_height. destruct (quality_heights !! q) as [v|] eqn:E; simpl.
  - exact (Hall q v E).
  - set_solver.
Qed.

(** With [force_mp4] and no ffmpeg the selector has no ['+'] and no
    auxiliary option is set, whatever the quality string. *)
Lemma build_format_string_mp4_without_ffmpeg (q : string) :
  PyStr.contains "+" (build_format_string q true false).1 = false
  ∧ (build_format_string q true false).2 = ∅.
Proof.
  unfold build_format_string.
  destruct (String.eqb q "Audio only"); [split; reflexivity|].
  cbn [negb].
  pose proof (max_height_cases q) as Hc.
  repeat (apply elem_of_cons in Hc as [-> | Hc]; [split; reflexivity|]).
  now apply elem_of_nil in Hc.
Qed.

Lemma ffmpeg_absent (w : world) :
  host_which w "ffmpeg" = None ->
  is_ffmpeg_available w = (w, Ok false).
Proof.
  intros H. unfold is_ffmpeg_available. rewrite H.
  f_equal.
Qed.

Lemma ffmpeg_present (w : world) (p : string) :
  host_which w "ffmpeg" = Some p ->
  is_ffmpeg_available w = (w, Ok true).
Proof.
  intros H. unfold is_ffmpeg_available. rewrite H.
  f_equal.
Qed.

(** C1.  The selector chosen for [Best (Original)] at quality [Best] is
    the two-stream expression ["bestvideo+bestaudio/best"] also when
    ffmpeg is missing: [build_format_string] does not look at
    [have_ffmpeg] once [force_mp4] is off, and [make_ydl_opts] passes the
    expression on, on every host without ffmpeg. *)
Theorem best_original_keeps_merge_without_ffmpeg (w : world) (url out_dir : string) :
  host_which w "ffmpeg" = None ->
  build_format_string "Best" false false = ("bestvideo+bestaudio/best", ∅)
  ∧ PyStr.contains "+" (build_format_string "Best" false false).1 = true
  ∧ make_ydl_opts url out_dir "Best (Original)" "Best" w
    = (w, Ok (<["format" := VStr "bestvideo+bestaudio/best"]> (base_ydl_opts out_dir))).
Proof.
  intros Hff. split; [reflexivity|]. split; [reflexivity|].
  unfold make_ydl_opts, mbind, M_bind, bind.
  rewrite (ffmpeg_absent w Hff).
  change (String.eqb "Best (Original)" "Video (MP4)") with false.
  change (String.eqb "Best (Original)" "Audio (MP3)") with false.
  change (String.eqb "Best (Original)" "Best (Original)") with true.
  change (build_format_string "Best" false false)
    with ("bestvideo+bestaudio/best", (∅ : gmap string optval)).
  cbn iota beta. unfold mret, M_ret, ret.
  now rewrite (left_id_L ∅ (∪)).
Qed.

Lemma best_original_keeps_merge_without_ffmpeg_witness :
  make_ydl_opts "https://www.youtube.com/watch?v=abc" "/home/user/Downloads"
                "Best (Original)" "Best" Sample.bare
  = (Sample.bare,
     Ok (<["format" := VStr "bestvideo+bestaudio/best"]>
           (base_ydl_opts "/home/user/Downloads"))).
Proof.
  apply (best_original_keeps_merge_without_ffmpeg Sample.bare). reflexivity.
Defined.

(** C6.  Assembling a [Video (MP4)] request on a host without ffmpeg
    enqueues nothing, for every quality string: the selector tested by
    [not have_ffmpeg and "+" in fmt] is already the single-file
    fallback, which has no ['+'], so the notice
    ["FFmpeg not found; falling back to single-file MP4 if possible."]
    is never put on the queue. *)
Theorem mp4_fallback_notice_never_enqueued (w : world) (url out_dir quality : string) :
  host_which w "ffmpeg" = None ->
  exists fmt : string,
    make_ydl_opts url out_dir "Video (MP4)" quality w
    = (w, Ok (<["format" := VStr fmt]> (base_ydl_opts out_dir)))
    ∧ PyStr.contains "+" fmt = false
    ∧ ui_update_queue (make_ydl_opts url out_dir "Video (MP4)" quality w).1
      = ui_update_queue w.
Proof.
  intros Hff.
  destruct (build_format_string_mp4_without_ffmpeg quality) as [Hplus Hextra].
  assert (Heq : make_ydl_opts url out_dir "Video (MP4)" quality w
    = (w, Ok (<["format" := VStr (build_format_string quality true false).1]>
                (base_ydl_opts out_dir)))).
  { unfold make_ydl_opts, mbind, M_bind, bind.
    rewrite (ffmpeg_absent w Hff).
    change (String.eqb "Video (MP4)" "Video (MP4)") with true. cbn iota beta.
    destruct (build_format_string quality true false) as [fmt extra].
    simpl in Hplus, Hextra. subst extra. rewrite Hplus.
    cbn [negb andb]. unfold mret, M_ret, ret.
    now rewrite (left_id_L ∅ (∪)). }
  exists (build_format_string quality true false).1.
  split; [exact Heq|]. split; [exact Hplus|].
  now rewrite Heq.
Qed.

Lemma mp4_fallback_notice_never_enqueued_witness :
  exists fmt : string,
    make_ydl_opts "https://www.youtube.com/watch?v=abc" "/home/user/Downloads"
                  "Video (MP4)" "720p" Sample.bare
    = (Sample.bare,
       Ok (<["format" := VStr fmt]> (base_ydl_opts "/home/user/Downloads")))
    ∧ PyStr.contains "+" fmt = false
    ∧ ui_update_queue
        (make_ydl_opts "https://www.youtube.com/watch?v=abc" "/home/user/Downloads"
                       "Video (MP4)" "720p" Sample.bare).1
      = ui_update_queue Sample.bare.
Proof.
  apply (mp4_fallback_notice_never_enqueued Sample.bare). reflexivity.
Defined.

(** C5 as stated fails twice.  For an out_type the resolver does not
    know, the quality is not consulted and the selector is the
    two-stream default; for [Audio (MP3)] on a host with ffmpeg the
    bundle carries the mp3 post-processor. *)
Lemma audio_only_not_uniform_across_kinds :
  (exists opts : gmap string optval,
     (make_ydl_opts "u" "/home/user/Downloads" "Playlist" "Audio only"
                    Sample.bare).2 = Ok opts
     ∧ opts !! "format" = Some (VStr "bestvideo+bestaudio/best")
     ∧ opts !! "format" <> Some (VStr "bestaudio/best"))
  ∧ (exists opts : gmap string optval,
     (make_ydl_opts "u" "/home/user/Downloads" "Audio (MP3)" "Audio only"
                    Sample.equipped).2 = Ok opts
     ∧ opts !! "postprocessors" = Some (VPostprocessors [mp3_postprocessor])
     ∧ opts <> <["format" := VStr "bestaudio/best"]>
                 (base_ydl_opts "/home/user/Downloads")).
Proof.
  split.
  - eexists. split; [reflexivity|]. split; [reflexivity|]. discriminate.
  - eexists. split; [reflexivity|]. split; [reflexivity|].
    intros Heq.
    apply (f_equal (fun m : gmap string optval => m !! "postprocessors")) in Heq.
    vm_compute in Heq. discriminate.
Qed.

(** C5, amended.  With the tier ["Audio only"], [build_format_string]
    returns ["bestaudio/best"] and no auxiliary option for both values of
    [force_mp4] and of [have_ffmpeg].  Through [make_ydl_opts]: for
    [Video (MP4)] and [Best (Original)] the bundle is the base bundle
    plus that format and nothing is enqueued; for [Audio (MP3)] the format
    is the same, the mp3 post-processor is added exactly when ffmpeg is
    available and a notice is enqueued otherwise; for any other out_type
    the tier is ignored and the format is ["bestvideo+bestaudio/best"]. *)
Theorem audio_only_tier_by_kind (w : world) (url out_dir : string) :
  (forall force_mp4 have_ffmpeg : bool,
     build_format_string "Audio only" force_mp4 have_ffmpeg
     = ("bestaudio/best", ∅))
  ∧ make_ydl_opts url out_dir "Video (MP4)" "Audio only" w
    = (w, Ok (<["format" := VStr "bestaudio/best"]> (base_ydl_opts out_dir)))
  ∧ make_ydl_opts url out_dir "Best (Original)" "Audio only" w
    = (w, Ok (<["format" := VStr "bestaudio/best"]> (base_ydl_opts out_dir)))
  ∧ make_ydl_opts url out_dir "Audio (MP3)" "Audio only" w
    = (if bool_decide (is_Some (host_which w "ffmpeg"))
       then (w, Ok (<["postprocessors" := VPostprocessors [mp3_postprocessor]]>
                      (<["format" := VStr "bestaudio/best"]> (base_ydl_opts out_dir))))
       else (set_queue
               (ui_update_queue w
                  ++ [Log "FFmpeg not found; saving best audio without MP3 conversion."])
               w,
             Ok (<["format" := VStr "bestaudio/best"]> (base_ydl_opts out_dir))))
  ∧ (forall out_type : string,
       out_type <> "Video (MP4)" -> out_type <> "Audio (MP3)" ->
       out_type <> "Best (Original)" ->
       make_ydl_opts url out_dir out_type "Audio only" w
       = (w, Ok (<["format" := VStr "bestvideo+bestaudio/best"]>
                   (base_ydl_opts out_dir)))).
Proof.
  split; [intros; reflexivity|].
  assert (Hb : forall b f, build_format_string "Audio only" f b
                           = ("bestaudio/best", (∅ : gmap string optval)))
    by (intros; reflexivity).
  split; [|split; [|split]].
  - unfold make_ydl_opts, mbind, M_bind, bind, is_ffmpeg_available.
    change (String.eqb "Video (MP4)" "Video (MP4)") with true. cbn iota beta.
    rewrite Hb. cbn iota beta.
    change (PyStr.contains "+" "bestaudio/best") with false.
    rewrite andb_false_r. unfold mret, M_ret, ret.
    now rewrite (left_id_L ∅ (∪)).
  - unfold make_ydl_opts, mbind, M_bind, bind, is_ffmpeg_available.
    change (String.eqb "Best (Original)" "Video (MP4)") with false.
    change (String.eqb "Best (Original)" "Audio (MP3)") with false.
    change (String.eqb "Best (Original)" "Best (Original)") with true.
    cbn iota beta. rewrite Hb. cbn iota beta. unfold mret, M_ret, ret.
    now rewrite (left_id_L ∅ (∪)).
  - unfold make_ydl_opts, mbind, M_bind, bind, is_ffmpeg_available.
    change (String.eqb "Audio (MP3)" "Video (MP4)") with false.
    change (String.eqb "Audio (MP3)" "Audio (MP3)") with true.
    cbn iota beta.
    destruct (bool_decide (is_Some (host_which w "ffmpeg"))); reflexivity.
  - intros out_type H1 H2 H3.
    unfold make_ydl_opts, mbind, M_bind, bind, is_ffmpeg_available.
    apply String.eqb_neq in H1, H2, H3. rewrite H1, H2, H3. reflexivity.
Qed.

Lemma audio_only_tier_by_kind_witness :
  make_ydl_opts "u" "/home/user/Downloads" "Playlist" "Audio only" Sample.bare
  = (Sample.bare,
     Ok (<["format" := VStr "bestvideo+bestaudio/best"]>
           (base_ydl_opts "/home/user/Downloads"))).
Proof.
  apply (audio_only_tier_by_kind Sample.bare "u" "/home/user/Downloads");
    discriminate.
Defined.

(** ** Numbers: when a division does not overflow *)

Lemma digits2_pos_size (p : positive) : digits2_pos p = Pos.size p.
Proof. induction p; simpl; congruence. Qed.

Lemma Zdigits2_log2 (z : Z) : 0 < z -> Zdigits2 z = Z.log2 z + 1.
Proof.
  destruct z as [|p|p]; try lia. intros _. simpl.
  rewrite digits2_pos_size. destruct p; simpl; lia.
Qed.

Lemma Zdigits2_nonneg (z : Z) : 0 <= Zdigits2 z.
Proof. destruct z; simpl; lia. Qed.

Lemma Zdigits2_mono (a b : Z) : 0 <= a <= b -> Zdigits2 a <= Zdigits2 b.
Proof.
  intros [Ha Hab]. destruct (Z.eq_dec a 0) as [->|Hne].
  - apply Zdigits2_nonneg.
  - rewrite !Zdigits2_log2 by lia.
    pose proof (Z.log2_le_mono a b Hab). lia.
Qed.

Lemma Zdigits2_succ (m : Z) : 0 <= m -> Zdigits2 (m + 1) <= Zdigits2 m + 1.
Proof.
  intros Hm. destruct (Z.eq_dec m 0) as [->|Hne]; [simpl; lia|].
  rewrite !Zdigits2_log2 by lia.
  pose proof (Z.log2_le_mono (m + 1) (2 * m) ltac:(lia)).
  rewrite Z.log2_double in H by lia. lia.
Qed.

Lemma Zdigits2_shiftl (m s : Z) : 0 < m -> 0 <= s -> Zdigits2 (Z.shiftl m s) = Zdigits2 m + s.
Proof.
  intros Hm Hs.
  assert (0 < Z.shiftl m s) by (rewrite Z.shiftl_mul_pow2 by lia; apply Z.mul_pos_pos; [lia | apply Z.pow_pos_nonneg; lia]).
  rewrite !Zdigits2_log2 by lia. rewrite Z.log2_shiftl by lia. lia.
Qed.

Lemma shr_1_bounds (r : shr_record) :
  0 <= shr_m r -> 0 <= shr_m (shr_1 r) <= shr_m r.
Proof.
  destruct r as [m rr s]. simpl. destruct m as [|[p|p|]|p]; simpl; lia.
Qed.

Lemma iter_pos_inv {A} (P : A -> Prop) (f : A -> A) :
  (forall x, P x -> P (f x)) -> forall n x, P x -> P (SpecFloat.iter_pos f n x).
Proof.
  intros Hf. induction n; intros x Hx; simpl; auto.
Qed.

Lemma shr_bounds (r : shr_record) (e n : Z) :
  0 <= shr_m r ->
  0 <= shr_m (fst (shr r e n)) <= shr_m r
  /\ (snd (shr r e n) = e \/ (0 < n /\ snd (shr r e n) = e + n)).
Proof.
  intros H. unfold shr. destruct n as [|p|p]; simpl; try (split; [lia | auto]).
  split; [|right; lia].
  apply (iter_pos_inv (fun r' => 0 <= shr_m r' <= shr_m r)); [|lia].
  intros x Hx. pose proof (shr_1_bounds x). lia.
Qed.

Lemma shr_m_of_loc m l : shr_m (shr_record_of_loc m l) = m.
Proof. destruct l as [|[]]; reflexivity. Qed.

Lemma round_nearest_even_bounds (m : Z) (l : location) :
  m <= round_nearest_even m l <= m + 1.
Proof. destruct l as [|[]]; simpl; try lia. destruct (Z.even m); lia. Qed.

Lemma binary_round_aux_finite (s : bool) (m e : Z) (l : location) :
  0 <= m -> Zdigits2 m <= 400 -> e <= 100 ->
  PyFloat.is_inf (binary_round_aux 53 1024 s m e l) = false.
Proof.
  intros Hm Hd He. unfold binary_round_aux, shr_fexp.
  set (n1 := fexp 53 1024 (Zdigits2 m + e) - e).
  pose proof (shr_bounds (shr_record_of_loc m l) e n1) as H1.
  rewrite shr_m_of_loc in H1. specialize (H1 Hm).
  destruct (shr (shr_record_of_loc m l) e n1) as [r1 e1]. simpl in H1.
  destruct H1 as [Hr1 He1].
  set (m1 := round_nearest_even (shr_m r1) (loc_of_shr_record r1)).
  pose proof (round_nearest_even_bounds (shr_m r1) (loc_of_shr_record r1)) as Hm1.
  fold m1 in Hm1.
  set (n2 := fexp 53 1024 (Zdigits2 m1 + e1) - e1).
  pose proof (shr_bounds (shr_record_of_loc m1 loc_Exact) e1 n2) as H2.
  rewrite shr_m_of_loc in H2. specialize (H2 ltac:(lia)).
  destruct (shr (shr_record_of_loc m1 loc_Exact) e1 n2) as [r2 e2]. simpl in H2.
  destruct H2 as [Hr2 He2].
  destruct (shr_m r2) as [|p|p]; try reflexivity.
  assert (Hd1 : Zdigits2 m1 <= 401).
  { pose proof (Zdigits2_mono m1 (shr_m r1 + 1) ltac:(lia)).
    pose proof (Zdigits2_succ (shr_m r1) ltac:(lia)).
    pose proof (Zdigits2_mono (shr_m r1) m ltac:(lia)). lia. }
  assert (He1' : e1 <= 447).
  { unfold n1, fexp, emin in He1. lia. }
  assert (He2' : e2 <= 971).
  { unfold n2, fexp, emin in He2. lia. }
  replace (e2 <=? 1024 - 53) with true; [reflexivity|].
  symmetry. apply Z.leb_le. lia.
Qed.

Lemma digits2_pos_iter_xO (p d : positive) :
  Zpos (digits2_pos (Pos.iter xO p d)) = Zpos (digits2_pos p) + Zpos d.
Proof.
  induction d as [|d IH] using Pos.peano_ind.
  - simpl. lia.
  - rewrite Pos.iter_succ. simpl. lia.
Qed.

Lemma binary_round_finite (s : bool) (p : positive) :
  Zpos p < 2 ^ 64 ->
  PyFloat.is_inf (binary_round 53 1024 s p 0) = false.
Proof.
  intros Hp. unfold binary_round, shl_align.
  assert (Hd : Zpos (digits2_pos p) <= 64).
  { change (Zpos (digits2_pos p)) with (Zdigits2 (Zpos p)).
    rewrite Zdigits2_log2 by lia.
    assert (Z.log2 (Zpos p) < 64) by (apply Z.log2_lt_pow2; lia). lia. }
  destruct (fexp 53 1024 (Zpos (digits2_pos p) + 0) - 0) as [|d|d] eqn:E.
  - apply binary_round_aux_finite; simpl; lia.
  - apply binary_round_aux_finite; simpl; lia.
  - apply binary_round_aux_finite; [lia | | unfold fexp, emin in *; lia].
    change (Zdigits2 (Zpos (Pos.iter xO p d))) with (Zpos (digits2_pos (Pos.iter xO p d))).
    rewrite digits2_pos_iter_xO. unfold fexp, emin in E. lia.
Qed.

Lemma div_exact_finite (sx sy : bool) (px py : positive) :
  Zpos px < 2 ^ 64 -> Zpos py < 2 ^ 64 ->
  PyFloat.is_inf (SFdiv 53 1024 (S754_finite sx px 0) (S754_finite sy py 0)) = false.
Proof.
  intros Hx Hy. unfold SFdiv, SFdiv_core_binary.
  assert (Hdx : 1 <= Zdigits2 (Zpos px) <= 64).
  { rewrite Zdigits2_log2 by lia.
    assert (Z.log2 (Zpos px) < 64) by (apply Z.log2_lt_pow2; lia).
    pose proof (Z.log2_nonneg (Zpos px)). lia. }
  assert (Hdy : 1 <= Zdigits2 (Zpos py) <= 64).
  { rewrite Zdigits2_log2 by lia.
    assert (Z.log2 (Zpos py) < 64) by (apply Z.log2_lt_pow2; lia).
    pose proof (Z.log2_nonneg (Zpos py)). lia. }
  set (e' := Z.min (fexp 53 1024 (Zdigits2 (Zpos px) + 0 - (Zdigits2 (Zpos py) + 0))) (0 - 0)).
  assert (He' : -116 <= e' <= 0) by (unfold e', fexp, emin; lia).
  set (s := 0 - 0 - e').
  set (m' := match s with Zpos _ => Z.shiftl (Zpos px) s | Z0 => Zpos px | Zneg _ => 0 end).
  assert (Hm' : 0 <= m' /\ Zdigits2 m' <= 180).
  { unfold m'. destruct s as [|q|q] eqn:Es.
    - lia.
    - rewrite Zdigits2_shiftl by lia. split; [|lia].
      apply Z.shiftl_nonneg. lia.
    - simpl. lia. }
  pose proof (Z_div_mod m' (Zpos py) ltac:(lia)) as Hdiv.
  destruct (Z.div_eucl m' (Zpos py)) as [q r].
  apply binary_round_aux_finite; [nia | | lia].
  pose proof (Zdigits2_mono q m' ltac:(nia)). lia.
Qed.


Lemma shr_1_half (r : shr_record) : 0 <= shr_m r -> shr_m (shr_1 r) = shr_m r / 2.
Proof.
  destruct r as [m rr s]. simpl. intros Hm.
  destruct m as [|[p|p|]|p]; simpl; try reflexivity; try lia.
  - change (Zpos p = Zpos p~1 / 2). rewrite Pos2Z.inj_xI.
    apply Z.div_unique with (r := 1); lia.
  - change (Zpos p = Zpos p~0 / 2). rewrite Pos2Z.inj_xO.
    apply Z.div_unique with (r := 0); lia.
Qed.

Lemma shr_m_iter (p : positive) (r : shr_record) :
  0 <= shr_m r -> shr_m (SpecFloat.iter_pos shr_1 p r) = shr_m r / 2 ^ Zpos p.
Proof.
  revert r. induction p as [p IH|p IH|]; intros r Hr; cbn [SpecFloat.iter_pos].
  - pose proof (shr_1_bounds r Hr) as Hb.
    assert (H1 : 0 <= shr_m (SpecFloat.iter_pos shr_1 p (shr_1 r))).
    { rewrite IH by lia. apply Z.div_pos; [lia | apply Z.pow_pos_nonneg; lia]. }
    rewrite IH by exact H1. rewrite IH by lia. rewrite shr_1_half by exact Hr.
    rewrite !Z.div_div by (try apply Z.pow_pos_nonneg; try apply Z.mul_pos_pos;
                           try apply Z.pow_pos_nonneg; lia).
    f_equal. rewrite <- Z.pow_add_r, <- Z.pow_succ_r by lia. f_equal. lia.
  - assert (H1 : 0 <= shr_m (SpecFloat.iter_pos shr_1 p r)).
    { rewrite IH by lia. apply Z.div_pos; [lia | apply Z.pow_pos_nonneg; lia]. }
    rewrite IH by exact H1. rewrite IH by lia.
    rewrite Z.div_div by (try apply Z.pow_pos_nonneg; lia).
    f_equal. rewrite <- Z.pow_add_r by lia. f_equal. lia.
  - rewrite shr_1_half by exact Hr. reflexivity.
Qed.

Lemma shr_fexp_pos (m e : Z) (l : location) :
  0 < m -> -1000 <= e ->
  0 < shr_m (fst (shr_fexp 53 1024 m e l)) /\ -1000 <= snd (shr_fexp 53 1024 m e l).
Proof.
  intros Hm He. unfold shr_fexp, shr.
  destruct (fexp 53 1024 (Zdigits2 m + e) - e) as [|p|p] eqn:E; simpl;
    rewrite ?shr_m_of_loc; try lia.
  rewrite shr_m_iter by (rewrite shr_m_of_loc; lia).
  rewrite shr_m_of_loc. split; [|lia].
  rewrite Zdigits2_log2 in E by lia.
  pose proof (Z.log2_nonneg m).
  assert (Hp : Zpos p <= Z.log2 m) by (unfold fexp, emin in E; lia).
  pose proof (Z.log2_spec m Hm) as [Hlo _].
  pose proof (Z.pow_le_mono_r 2 (Zpos p) (Z.log2 m) ltac:(lia) Hp).
  apply Z.div_str_pos. split; [apply Z.pow_pos_nonneg; lia | lia].
Qed.

Lemma binary_round_aux_nonzero (s : bool) (m e : Z) (l : location) :
  0 < m -> -1000 <= e ->
  PyFloat.is_zero (binary_round_aux 53 1024 s m e l) = false.
Proof.
  intros Hm He. unfold binary_round_aux.
  pose proof (shr_fexp_pos m e l Hm He) as [H1 H1e].
  destruct (shr_fexp 53 1024 m e l) as [r1 e1]. simpl in H1, H1e.
  pose proof (round_nearest_even_bounds (shr_m r1) (loc_of_shr_record r1)) as Hm1.
  pose proof (shr_fexp_pos (round_nearest_even (shr_m r1) (loc_of_shr_record r1))
                e1 loc_Exact ltac:(lia) H1e) as [H2 _].
  destruct (shr_fexp 53 1024 _ e1 loc_Exact) as [r2 e2]. simpl in H2.
  destruct (shr_m r2) as [|q|q]; try lia.
  destruct (e2 <=? 1024 - 53); reflexivity.
Qed.

Lemma binary_round_nonzero (s : bool) (p : positive) :
  PyFloat.is_zero (binary_round 53 1024 s p 0) = false.
Proof.
  unfold binary_round, shl_align.
  destruct (fexp 53 1024 (Zpos (digits2_pos p) + 0) - 0) as [|d|d] eqn:E;
    apply binary_round_aux_nonzero; try lia.
  unfold fexp, emin in *. lia.
Qed.

Lemma to_float_total (z : Z) :
  Z.abs z < 2 ^ 64 -> exists f : pyfloat, PyNum.to_float z = Ok f.
Proof.
  intros Hz.
  unfold PyNum.to_float, PyFloat.of_Z_round, binary_normalize,
    PyFloat.prec, PyFloat.emax.
  destruct z as [|p|p].
  - eexists. reflexivity.
  - rewrite (binary_round_finite false p) by lia. eauto.
  - rewrite (binary_round_finite true p) by lia. eauto.
Qed.

Lemma int_truediv_total (x y : Z) :
  Z.abs x < 2 ^ 64 -> Z.abs y < 2 ^ 64 -> y <> 0 ->
  exists f : pyfloat, PyNum.truediv (NInt x) (NInt y) = Ok f.
Proof.
  intros Hx Hy Hne. unfold PyNum.truediv.
  apply Z.eqb_neq in Hne. rewrite Hne.
  assert (Hfin : PyFloat.is_inf (PyFloat.div (PyNum.exact x) (PyNum.exact y)) = false).
  { apply Z.eqb_neq in Hne.
    destruct x as [|px|px], y as [|py|py]; try lia; try reflexivity;
      apply div_exact_finite; lia. }
  rewrite Hfin. eauto.
Qed.

(** A division whose operands fit and whose divisor is truthy returns. *)
Lemma truediv_total (a b : num) :
  fits_64 a -> fits_64 b -> PyNum.truthy b = true ->
  exists f : pyfloat, PyNum.truediv a b = Ok f.
Proof.
  intros Ha Hb Ht. destruct a as [x|f], b as [y|g]; simpl in Ha, Hb, Ht.
  - apply int_truediv_total; [exact Ha | exact Hb |].
    intros ->. discriminate.
  - unfold PyNum.truediv. destruct (to_float_total x Ha) as [f ->].
    unfold PyNum.float_truediv, PyFloat.truthy in *.
    destruct (PyFloat.is_zero g); [discriminate | eauto].
  - unfold PyNum.truediv. destruct (to_float_total y Hb) as [g Hg].
    rewrite Hg. unfold PyNum.float_truediv.
    assert (Hz : PyFloat.is_zero g = false).
    { unfold PyNum.to_float in Hg.
      destruct (PyFloat.is_inf (PyFloat.of_Z_round y)) eqn:Ei; [discriminate|].
      injection Hg as <-.
      destruct y as [|p|p]; [discriminate| |]; apply binary_round_nonzero. }
    rewrite Hz. eauto.
  - unfold PyNum.truediv, PyNum.float_truediv, PyFloat.truthy in *.
    destruct (PyFloat.is_zero g); [discriminate | eauto].
Qed.

(** ** The progress handler *)

Lemma string_app_assoc (a b c : string) : (a +:+ b) +:+ c = a +:+ (b +:+ c).
Proof.
  induction a as [|x a IH]; [reflexivity|].
  change (String x ((a +:+ b) +:+ c) = String x (a +:+ (b +:+ c))).
  now rewrite IH.
Qed.

Lemma status_is_false (status : option string) (s : string) :
  status <> Some s -> status_is status s = false.
Proof.
  intros H. destruct status as [t|]; simpl; [|reflexivity].
  apply String.eqb_neq. intros ->. now apply H.
Qed.

(** The handler's first statement: a set flag aborts before anything
    else happens. *)
Lemma progress_hook_cancelled (w : world) (d : status_dict) :
  cancel_event w = true ->
  progress_hook d w = (w, Raise (DownloadError "Cancelled by user")).
Proof.
  intros H. unfold progress_hook, mbind, M_bind, bind, cancel_is_set.
  now rewrite H.
Qed.


Lemma or_else_fits (a : option num) (b : num) :
  opt_fits_64 a -> fits_64 b -> fits_64 (PyNum.or_else a b).
Proof.
  intros Ha Hb. destruct a as [x|]; simpl; [|exact Hb].
  destruct (PyNum.truthy x); assumption.
Qed.

Lemma hook_percent_total (d : status_dict) :
  record_fits_64 d -> exists percent : pyfloat, hook_percent d = Ok percent.
Proof.
  intros (Ht & He & Hd & _ & _). unfold hook_percent.
  destruct (PyNum.truthy (hook_total d)) eqn:Et; [|simpl; eauto].
  destruct (PyNum.truthy (hook_downloaded d)); [|simpl; eauto].
  simpl. apply truediv_total; [| |exact Et].
  - apply or_else_fits; [exact Hd | simpl; lia].
  - apply or_else_fits; [exact Ht|]. apply or_else_fits; [exact He | simpl; lia].
Qed.

Lemma hook_speed_text_total (speed : option num) :
  opt_fits_64 speed -> exists t : string, hook_speed_text speed = Ok t.
Proof.
  intros Hs. unfold hook_speed_text. destruct speed as [s|]; [|eauto].
  destruct (PyNum.truthy s); [|eauto].
  destruct (truediv_total s (NInt 1024) Hs) as [kib ->];
    [simpl; lia | reflexivity |].
  destruct (truediv_total (NFloat kib) (NInt 1024) I) as [mib Hm];
    [simpl; lia | reflexivity |].
  unfold mbind, pyres_bind. rewrite Hm. eauto.
Qed.

Lemma to_str_total (n : Z) :
  Z.abs n < 2 ^ 64 -> PyNum.to_str n = Ok (PyStr.of_Z n).
Proof.
  intros Hn. unfold PyNum.to_str.
  assert (Hlim : 2 ^ 64 <= 10 ^ 4300).
  { apply Z.leb_le. vm_compute. reflexivity. }
  assert (Hlt : (Z.abs n <? 10 ^ 4300) = true) by (apply Z.ltb_lt; lia).
  now rewrite Hlt.
Qed.

Lemma hook_eta_text_total (eta : option Z) :
  opt_fits_64 (option_map NInt eta) -> exists t : string, hook_eta_text eta = Ok t.
Proof.
  intros He. unfold hook_eta_text. destruct eta as [n|]; [|eauto].
  destruct (negb (n =? 0)); [|eauto].
  rewrite (to_str_total n He). unfold mbind, pyres_bind. eauto.
Qed.

Lemma hook_text_total (percent : pyfloat) (d : status_dict) :
  record_fits_64 d -> exists text : string, hook_text percent d = Ok text.
Proof.
  intros (_ & _ & _ & Hs & He). unfold hook_text.
  destruct (hook_speed_text_total (st_speed d) Hs) as [sp ->].
  destruct (hook_eta_text_total (st_eta d) He) as [et ->].
  unfold mbind, pyres_bind. eauto.
Qed.



(** C10.  With the flag unset, a record whose status is neither
    ["downloading"] nor ["finished"] (or is missing) makes the handler
    return normally with the whole state, the queue included, as it
    was. *)
Theorem other_status_leaves_queue (w : world) (d : status_dict) :
  cancel_event w = false ->
  st_status d <> Some "downloading" ->
  st_status d <> Some "finished" ->
  progress_hook d w = (w, Ok tt)
  ∧ ui_update_queue (progress_hook d w).1 = ui_update_queue w.
Proof.
  intros Hc H1 H2.
  assert (Heq : progress_hook d w = (w, Ok tt)).
  { unfold progress_hook, mbind, M_bind, bind, cancel_is_set.
    rewrite Hc. cbn iota beta.
    now rewrite (status_is_false _ _ H1), (status_is_false _ _ H2). }
  split; [exact Heq | now rewrite Heq].
Qed.

Lemma other_status_leaves_queue_witness :
  progress_hook Sample.postprocessing Sample.bare = (Sample.bare, Ok tt)
  ∧ ui_update_queue (progress_hook Sample.postprocessing Sample.bare).1
    = ui_update_queue Sample.bare.
Proof.
  apply (other_status_leaves_queue Sample.bare Sample.postprocessing);
    [reflexivity | discriminate | discriminate].
Defined.

(** C9.  [on_cancel_download] sets the flag and appends ["Cancelling..."]
    to the log box; the queue, the thread record and the started threads
    are untouched.  From then on, and in any state whose flag is set,
    the handler raises [DownloadError "Cancelled by user"] for every
    status record, leaving the state (hence the queue) as it found it, so
    the next call raises again.  In a transfer, a Cancel pressed before
    the first callback makes that callback abort the transfer; the
    remaining steps never run. *)
Theorem cancel_then_handler_aborts (w : world) :
  on_cancel_download w
  = World (host_which w) (host_isdir w) (ui_update_queue w) (download_thread w)
          true (last_pump_time w) (started_threads w)
          (set_log_box
             ((if PyStr.truthy (log_box (dpg w))
               then log_box (dpg w) +:+ String "010"%char EmptyString
               else "") +:+ "Cancelling...")
             (dpg w))
  ∧ cancel_event (on_cancel_download w) = true
  ∧ ui_update_queue (on_cancel_download w) = ui_update_queue w
  ∧ started_threads (on_cancel_download w) = started_threads w
  ∧ (forall d : status_dict,
       progress_hook d (on_cancel_download w)
       = (on_cancel_download w, Raise (DownloadError "Cancelled by user")))
  ∧ (forall (d : status_dict) (rest : list transfer_step),
       run_transfer [progress_hook_ref] (CancelPressed :: Callback d :: rest) w
       = (on_cancel_download w, Raise (DownloadError "Cancelled by user")))
  ∧ (forall (w' : world) (d : status_dict),
       cancel_event w' = true ->
       progress_hook d w' = (w', Raise (DownloadError "Cancelled by user"))
       ∧ ui_update_queue (progress_hook d w').1 = ui_update_queue w').
Proof.
  split; [reflexivity|]. split; [reflexivity|].
  split; [reflexivity|]. split; [reflexivity|].
  split; [|split].
  - intros d. now apply progress_hook_cancelled.
  - intros d rest.
    cbn [run_transfer call_hooks call_hook].
    unfold mbind, M_bind, bind, modify.
    now rewrite (progress_hook_cancelled (on_cancel_download w) d eq_refl).
  - intros w' d H. rewrite (progress_hook_cancelled w' d H). now split.
Qed.

Lemma cancel_then_handler_aborts_witness :
  progress_hook Sample.quarter Sample.cancelling
  = (Sample.cancelling, Raise (DownloadError "Cancelled by user"))
  ∧ ui_update_queue (progress_hook Sample.quarter Sample.cancelling).1
    = ui_update_queue Sample.cancelling.
Proof.
  apply (cancel_then_handler_aborts Sample.bare). reflexivity.
Defined.

(** ** The worker *)

Lemma count_done_app (a b : list event) :
  count_done (a ++ b) = (count_done a + count_done b)%nat.
Proof. unfold count_done. now rewrite List.filter_app, length_app. Qed.

Lemma grows_refl (w : world) : grows_without_done w w.
Proof. exists []. split; [now rewrite app_nil_r | reflexivity]. Qed.

Lemma grows_trans (w1 w2 w3 : world) :
  grows_without_done w1 w2 -> grows_without_done w2 w3 ->
  grows_without_done w1 w3.
Proof.
  intros (e1 & H1 & C1) (e2 & H2 & C2). exists (e1 ++ e2). split.
  - now rewrite H2, H1, <- app_assoc.
  - rewrite count_done_app. lia.
Qed.

Lemma quiet_ret {A} (a : A) : quiet (mret a).
Proof. intros w. apply grows_refl. Qed.

Lemma quiet_raise {A} (e : exn) : quiet (@raise A e).
Proof. intros w. apply grows_refl. Qed.

Lemma quiet_lift_res {A} (r : pyres A) : quiet (lift_res r).
Proof. intros w. apply grows_refl. Qed.

Lemma quiet_bind {A B} (m : M A) (k : A -> M B) :
  quiet m -> (forall a, quiet (k a)) -> quiet (m ≫= k).
Proof.
  intros Hm Hk w. unfold mbind, M_bind, bind.
  specialize (Hm w). destruct (m w) as [w1 [a|e]]; simpl in *.
  - eapply grows_trans; [exact Hm | apply Hk].
  - exact Hm.
Qed.

Lemma quiet_put (e : event) : is_done e = false -> quiet (queue_put e).
Proof.
  intros He w. exists [e]. split; [reflexivity|].
  unfold count_done. simpl. now rewrite He.
Qed.

Lemma quiet_cancel_pressed : quiet (modify on_cancel_download).
Proof. intros w. exists []. split; [now rewrite app_nil_r | reflexivity]. Qed.

Create HintDb quiet.
#[local] Hint Resolve quiet_ret quiet_raise quiet_lift_res quiet_put
  quiet_cancel_pressed : quiet.

Lemma quiet_progress_hook (d : status_dict) : quiet (progress_hook d).
Proof.
  unfold progress_hook. apply quiet_bind.
  - intros w. apply grows_refl.
  - intros c. destruct c; [auto with quiet|].
    destruct (status_is (st_status d) "downloading").
    + apply quiet_bind; [auto with quiet|]. intros percent.
      apply quiet_bind; auto with quiet.
    + destruct (status_is (st_status d) "finished"); [|auto with quiet].
      apply quiet_bind; auto with quiet.
Qed.

Lemma quiet_call_hooks (hs : list hook_ref) (d : status_dict) :
  quiet (call_hooks hs d).
Proof.
  induction hs as [|h hs IH]; simpl; [auto with quiet|].
  apply quiet_bind; [|intros _; exact IH].
  destruct h. apply quiet_progress_hook.
Qed.

Lemma quiet_run_transfer (hs : list hook_ref) (steps : list transfer_step) :
  quiet (run_transfer hs steps).
Proof.
  induction steps as [|[d|] steps IH]; simpl; [auto with quiet| |].
  - apply quiet_bind; [apply quiet_call_hooks | intros _; exact IH].
  - apply quiet_bind; [auto with quiet | intros _; exact IH].
Qed.

Lemma quiet_make_ydl_opts (url out_dir out_type quality : string) :
  quiet (make_ydl_opts url out_dir out_type quality).
Proof.
  unfold make_ydl_opts. apply quiet_bind.
  - intros w. apply grows_refl.
  - intros have_ffmpeg.
    destruct (String.eqb out_type "Video (MP4)").
    { destruct (build_format_string quality true have_ffmpeg) as [fmt extra].
      destruct (negb have_ffmpeg && PyStr.contains "+" fmt); [|auto with quiet].
      apply quiet_bind; auto with quiet. }
    destruct (String.eqb out_type "Audio (MP3)").
    { destruct have_ffmpeg; [auto with quiet|].
      apply quiet_bind; auto with quiet. }
    destruct (String.eqb out_type "Best (Original)"); [|auto with quiet].
    destruct (build_format_string quality false have_ffmpeg) as [fmt extra].
    auto with quiet.
Qed.

Lemma quiet_worker_fetch (ydl : collaborator) (url out_dir out_type quality : string) :
  quiet (worker_fetch ydl url out_dir out_type quality).
Proof.
  unfold worker_fetch. apply quiet_bind; [apply quiet_make_ydl_opts|].
  intros opts. apply quiet_bind; [auto with quiet|]. intros _.
  unfold ydl_download. apply quiet_bind; [apply quiet_run_transfer|].
  auto with quiet.
Qed.

(** The worker is its fetch part followed by the final [put], or by one
    of the two handlers. *)
Lemma downloader_worker_unfold (ydl : collaborator)
    (url out_dir out_type quality : string) (w : world) :
  downloader_worker ydl url out_dir out_type quality w
  = match worker_fetch ydl url out_dir out_type quality w with
    | (w1, Ok _) =>
        (set_queue (ui_update_queue w1 ++ [Done true]) w1, Ok tt)
    | (w1, Raise (DownloadError msg)) =>
        (set_queue
           ((ui_update_queue w1 ++ [Log ("Cancelled: " +:+ msg)]) ++ [Done false])
           (set_queue (ui_update_queue w1 ++ [Log ("Cancelled: " +:+ msg)]) w1),
         Ok tt)
    | (w1, Raise (PyException _ msg)) =>
        (set_queue
           ((ui_update_queue w1 ++ [Log ("Error: " +:+ msg)]) ++ [Done false])
           (set_queue (ui_update_queue w1 ++ [Log ("Error: " +:+ msg)]) w1),
         Ok tt)
    end.
Proof.
  unfold downloader_worker, worker_fetch, try_except, mbind, M_bind, bind.
  destruct (make_ydl_opts url out_dir out_type quality w) as [w0 [opts|e]].
  - unfold queue_put, modify. cbn beta iota.
    destruct (ydl_download ydl opts [url] _) as [w1 [[]|e]].
    + reflexivity.
    + destruct e; reflexivity.
  - unfold queue_put, modify. destruct e; reflexivity.
Qed.

(** Assembling the options never raises and does not touch the flag. *)
Lemma make_ydl_opts_returns (url out_dir out_type quality : string) (w : world) :
  exists (opts : gmap string optval) (w' : world),
    make_ydl_opts url out_dir out_type quality w = (w', Ok opts)
    ∧ cancel_event w' = cancel_event w.
Proof.
  unfold make_ydl_opts, mbind, M_bind, bind, is_ffmpeg_available.
  destruct (String.eqb out_type "Video (MP4)").
  { destruct (build_format_string quality true _) as [fmt extra].
    destruct (negb _ && PyStr.contains "+" fmt); eauto. }
  destruct (String.eqb out_type "Audio (MP3)").
  { destruct (bool_decide _); eauto. }
  destruct (String.eqb out_type "Best (Original)"); [|eauto].
  destruct (build_format_string quality false _) as [fmt extra]. eauto.
Qed.

(** C2.  Every run of the worker returns normally and leaves on the
    queue what was there, then events none of which is terminal, then
    exactly one [Done], which is the last event; its flag is [true] when
    the fetch part returned and [false] when it raised, whether
    [DownloadError] or any other exception. *)
Theorem worker_enqueues_exactly_one_done (ydl : collaborator)
    (url out_dir out_type quality : string) (w : world) :
  exists evs : list event,
    (downloader_worker ydl url out_dir out_type quality w).2 = Ok tt
    ∧ ui_update_queue (downloader_worker ydl url out_dir out_type quality w).1
      = ui_update_queue w ++ evs
          ++ [Done (is_ok (worker_fetch ydl url out_dir out_type quality w).2)]
    ∧ count_done evs = 0%nat
    ∧ count_done
        (evs ++ [Done (is_ok (worker_fetch ydl url out_dir out_type quality w).2)])
      = 1%nat.
Proof.
  rewrite downloader_worker_unfold.
  destruct (quiet_worker_fetch ydl url out_dir out_type quality w)
    as (evs & Hq & Hc).
  destruct (worker_fetch ydl url out_dir out_type quality w)
    as [w1 [[]|[msg|cls msg]]]; simpl in Hq |- *.
  - exists evs. rewrite Hq, <- app_assoc, count_done_app, Hc. auto.
  - exists (evs ++ [Log ("Cancelled: " +:+ msg)]).
    rewrite Hq, <- !app_assoc, !count_done_app, Hc. auto.
  - exists (evs ++ [Log ("Error: " +:+ msg)]).
    rewrite Hq, <- !app_assoc, !count_done_app, Hc. auto.
Qed.

(** C3.  When the collaborator itself raises [DownloadError] (the class
    yt-dlp uses for its own download failures) while the flag is unset
    and no callback has run, the worker still takes the first handler:
    the report is ["Cancelled: " + msg], followed by [Done false], and
    the flag is still unset afterwards. *)
Theorem collaborator_download_error_reported_cancelled (w : world)
    (url out_dir out_type quality msg : string) :
  cancel_event w = false ->
  let ydl := Collaborator [] (Raise (DownloadError msg)) in
  exists evs : list event,
    ui_update_queue (downloader_worker ydl url out_dir out_type quality w).1
    = ui_update_queue w ++ evs ++ [Log ("Cancelled: " +:+ msg); Done false]
    ∧ cancel_event (downloader_worker ydl url out_dir out_type quality w).1 = false.
Proof.
  intros Hc ydl. rewrite downloader_worker_unfold.
  destruct (make_ydl_opts_returns url out_dir out_type quality w)
    as (opts & w' & Heq & Hc').
  destruct (quiet_make_ydl_opts url out_dir out_type quality w) as (evs & Hq & _).
  rewrite Heq in Hq. simpl in Hq.
  unfold worker_fetch, mbind, M_bind, bind. rewrite Heq.
  unfold queue_put, modify, ydl_download, mbind, M_bind, bind, lift_res.
  simpl. exists (evs ++ [Log ("Starting: " +:+ url)]).
  rewrite Hq, Hc', Hc, <- !app_assoc. auto.
Qed.

Lemma collaborator_download_error_reported_cancelled_witness :
  exists evs : list event,
    ui_update_queue
      (downloader_worker Sample.unavailable "https://www.youtube.com/watch?v=abc"
                         "/home/user/Downloads" "Best (Original)" "Best"
                         Sample.bare).1
    = ui_update_queue Sample.bare ++ evs
        ++ [Log "Cancelled: ERROR: Video unavailable"; Done false]
    ∧ cancel_event
        (downloader_worker Sample.unavailable "https://www.youtube.com/watch?v=abc"
                           "/home/user/Downloads" "Best (Original)" "Best"
                           Sample.bare).1
      = false.
Proof.
  apply (collaborator_download_error_reported_cancelled Sample.bare). reflexivity.
Defined.

(** ** The consumer side *)

Lemma truthy_false_iff (s : string) : PyStr.truthy s = false <-> s = "".
Proof. destruct s; simpl; split; congruence. Qed.

(** C7.  When the stripped URL is empty, or the stripped output folder
    is empty, or it is not an existing directory, [on_start_download]
    does nothing but append one of its three messages to the log box: no
    thread is started, the queue receives nothing (so no [Done]), and the
    flag, the progress bar, its overlay and the buttons stay as they
    were. *)
Theorem start_rejects_invalid_request (w : world) :
  PyStr.strip (url_input (dpg w)) = ""
  ∨ PyStr.strip (output_text (dpg w)) = ""
  ∨ host_isdir w (PyStr.strip (output_text (dpg w))) = false ->
  exists msg : string,
    msg ∈ ["Please enter a URL."; "Please choose an output folder.";
           "Output folder does not exist."]
    ∧ on_start_download w = append_log msg w
    ∧ log_box (dpg (on_start_download w))
      = (if PyStr.truthy (log_box (dpg w))
         then log_box (dpg w) +:+ String "010"%char EmptyString
         else "") +:+ msg
    ∧ started_threads (on_start_download w) = started_threads w
    ∧ download_thread (on_start_download w) = download_thread w
    ∧ ui_update_queue (on_start_download w) = ui_update_queue w
    ∧ cancel_event (on_start_download w) = cancel_event w
    ∧ progress_bar (dpg (on_start_download w)) = progress_bar (dpg w)
    ∧ progress_bar_overlay (dpg (on_start_download w))
      = progress_bar_overlay (dpg w)
    ∧ start_btn_enabled (dpg (on_start_download w)) = start_btn_enabled (dpg w)
    ∧ cancel_btn_enabled (dpg (on_start_download w)) = cancel_btn_enabled (dpg w).
Proof.
  intros H.
  assert (Hmsg : exists msg : string,
            msg ∈ ["Please enter a URL."; "Please choose an output folder.";
                   "Output folder does not exist."]
            ∧ on_start_download w = append_log msg w).
  { unfold on_start_download.
    destruct (PyStr.truthy (PyStr.strip (url_input (dpg w)))) eqn:Eu; cbn [negb].
    2:{ eexists; split; [|reflexivity]. in_list. }
    destruct (PyStr.truthy (PyStr.strip (output_text (dpg w)))) eqn:Eo; cbn [negb].
    2:{ eexists; split; [|reflexivity]. in_list. }
    destruct (host_isdir w (PyStr.strip (output_text (dpg w)))) eqn:Ed; cbn [negb].
    2:{ eexists; split; [|reflexivity]. in_list. }
    exfalso. destruct H as [H | [H | H]].
    - apply truthy_false_iff in H. congruence.
    - apply truthy_false_iff in H. congruence.
    - congruence. }
  destruct Hmsg as (msg & Hin & Heq). exists msg.
  split; [exact Hin|]. split; [exact Heq|]. rewrite Heq.
  repeat split.
Qed.

Lemma start_rejects_invalid_request_witness :
  exists msg : string,
    msg ∈ ["Please enter a URL."; "Please choose an output folder.";
           "Output folder does not exist."]
    ∧ on_start_download Sample.missing_dir = append_log msg Sample.missing_dir
    ∧ log_box (dpg (on_start_download Sample.missing_dir))
      = (if PyStr.truthy (log_box (dpg Sample.missing_dir))
         then log_box (dpg Sample.missing_dir) +:+ String "010"%char EmptyString
         else "") +:+ msg
    ∧ started_threads (on_start_download Sample.missing_dir)
      = started_threads Sample.missing_dir
    ∧ download_thread (on_start_download Sample.missing_dir)
      = download_thread Sample.missing_dir
    ∧ ui_update_queue (on_start_download Sample.missing_dir)
      = ui_update_queue Sample.missing_dir
    ∧ cancel_event (on_start_download Sample.missing_dir)
      = cancel_event Sample.missing_dir
    ∧ progress_bar (dpg (on_start_download Sample.missing_dir))
      = progress_bar (dpg Sample.missing_dir)
    ∧ progress_bar_overlay (dpg (on_start_download Sample.missing_dir))
      = progress_bar_overlay (dpg Sample.missing_dir)
    ∧ start_btn_enabled (dpg (on_start_download Sample.missing_dir))
      = start_btn_enabled (dpg Sample.missing_dir)
    ∧ cancel_btn_enabled (dpg (on_start_download Sample.missing_dir))
      = cancel_btn_enabled (dpg Sample.missing_dir).
Proof.
  apply (start_rejects_invalid_request Sample.missing_dir).
  right. right. reflexivity.
Defined.

Lemma float_ltb_leb (x y : pyfloat) :
  PyFloat.ltb x y = true -> PyFloat.leb x y = true.
Proof.
  unfold PyFloat.ltb, PyFloat.leb, SFltb, SFleb.
  destruct (SFcompare x y) as [[| |]|]; congruence.
Qed.

(** [max(0.0, min(1.0, x))] lies in the unit interval for every [x],
    NaN and the infinities included. *)
Lemma clamp_in_unit_interval (x : pyfloat) :
  in_unit_interval (py_max PyFloat.zero (py_min PyFloat.one x)).
Proof.
  unfold py_max, py_min.
  destruct (PyFloat.ltb x PyFloat.one) eqn:E1.
  - destruct (PyFloat.ltb PyFloat.zero x) eqn:E2.
    + split; now apply float_ltb_leb.
    + split; reflexivity.
  - split; reflexivity.
Qed.

Lemma apply_event_keeps_unit_interval (w : world) (e : event) :
  in_unit_interval (progress_bar (dpg w)) ->
  in_unit_interval (progress_bar (dpg (apply_event w e))).
Proof.
  intros H. destruct e as [text|percent text|ok]; simpl.
  - exact H.
  - apply clamp_in_unit_interval.
  - destruct ok; exact H.
Qed.

Lemma drain_keeps_unit_interval (evs : list event) (w : world) :
  in_unit_interval (progress_bar (dpg w)) ->
  in_unit_interval (progress_bar (dpg (fold_left apply_event evs w))).
Proof.
  revert w. induction evs as [|e evs IH]; intros w H; simpl; [exact H|].
  apply IH, apply_event_keeps_unit_interval, H.
Qed.

Lemma compare_eq_finite (x : pyfloat) (m0 : positive) (e0 : Z) :
  SFcompare x (S754_finite false m0 e0) = Some Eq -> x = S754_finite false m0 e0.
Proof.
  destruct x as [s|s| |s m e]; cbn [SFcompare]; try discriminate.
  - destruct s; discriminate.
  - destruct s; [discriminate|].
    destruct (Z.compare_spec e e0) as [-> | |]; try discriminate.
    intros [= H]. apply Pos.compare_eq in H. now subst.
Qed.

Lemma compare_eq_one (x : pyfloat) :
  SFcompare x PyFloat.one = Some Eq -> x = PyFloat.one.
Proof. apply compare_eq_finite. Qed.

Lemma compare_eq_zero (x : pyfloat) :
  SFcompare PyFloat.zero x = Some Eq -> exists s : bool, x = S754_zero s.
Proof.
  unfold PyFloat.zero.
  destruct x as [s|s| |s m e]; cbn [SFcompare]; try discriminate; [eauto | |];
    destruct s; discriminate.
Qed.

Lemma ltb_zero_one : PyFloat.ltb PyFloat.zero PyFloat.one = true.
Proof. reflexivity. Qed.

(** A fraction already in [0,1] comes out of the clamp as it went in
    (the negative zero apart, which [max] replaces by [0.0]). *)
Lemma clamp_keeps_unit_interval (x : pyfloat) :
  in_unit_interval x -> x <> S754_zero true ->
  py_max PyFloat.zero (py_min PyFloat.one x) = x.
Proof.
  intros [H0 H1] Hnz. unfold py_max, py_min.
  destruct (PyFloat.ltb x PyFloat.one) eqn:E1.
  - destruct (PyFloat.ltb PyFloat.zero x) eqn:E0; [reflexivity|].
    unfold PyFloat.ltb, PyFloat.leb, SFltb, SFleb in H0, E0.
    destruct (SFcompare PyFloat.zero x) as [[| |]|] eqn:E; try discriminate.
    destruct (compare_eq_zero x E) as [[|] ->]; [now elim Hnz | reflexivity].
  - unfold PyFloat.ltb, PyFloat.leb, SFltb, SFleb in H1, E1.
    destruct (SFcompare x PyFloat.one) as [[| |]|] eqn:E; try discriminate.
    apply compare_eq_one in E. subst x. now rewrite ltb_zero_one.
Qed.

Lemma ltb_finite_asym (x : pyfloat) (m0 : positive) (e0 : Z) :
  SFltb (S754_finite false m0 e0) x = true ->
  SFltb x (S754_finite false m0 e0) = false.
Proof.
  unfold SFltb.
  destruct x as [s|s| |s m e]; cbn [SFcompare]; try discriminate.
  - destruct s; [discriminate | reflexivity].
  - destruct s; [discriminate|].
    rewrite (Z.compare_antisym e0 e).
    destruct (e0 ?= e) eqn:Ee; cbn [CompOpp]; try discriminate;
      [|intros _; reflexivity].
    change (Pos.compare_cont Eq m m0) with (Pos.compare m m0).
    change (Pos.compare_cont Eq m0 m) with (Pos.compare m0 m).
    rewrite (Pos.compare_antisym m0 m).
    destruct (Pos.compare m0 m); cbn [CompOpp]; try discriminate.
    intros _; reflexivity.
Qed.

Lemma ltb_one_asym (x : pyfloat) :
  PyFloat.ltb PyFloat.one x = true -> PyFloat.ltb x PyFloat.one = false.
Proof. apply ltb_finite_asym. Qed.

Lemma clamp_above_one (x : pyfloat) :
  PyFloat.ltb PyFloat.one x = true ->
  py_max PyFloat.zero (py_min PyFloat.one x) = PyFloat.one.
Proof.
  intros H. unfold py_max, py_min.
  now rewrite (ltb_one_asym x H), ltb_zero_one.
Qed.

Lemma clamp_below_zero (x : pyfloat) :
  PyFloat.ltb x PyFloat.zero = true ->
  py_max PyFloat.zero (py_min PyFloat.one x) = PyFloat.zero.
Proof.
  intros H.
  assert (Hneg : x = S754_infinity true ∨ exists m e, x = S754_finite true m e).
  { unfold PyFloat.ltb, SFltb, PyFloat.zero in H.
    destruct x as [s|s| |s m e]; cbn [SFcompare] in H; try discriminate;
      destruct s; try discriminate; eauto. }
  destruct Hneg as [-> | (m & e & ->)]; reflexivity.
Qed.

(** C8.  Whatever fraction a Progress event carries, the value the pump
    writes to the progress bar is [max(0.0, min(1.0, fraction))], which
    lies in [0,1]; a whole call of [ui_pump], throttled or not and
    whatever the queue holds, keeps the bar in [0,1].  The clamp is the
    identity on [0,1]: a fraction already in range is shown as it is
    (a negative zero as [0.0]); a fraction above 1.0 is shown as 1.0, one
    below 0.0 as 0.0, a NaN as 1.0.  With 300 of 200 bytes the handler
    enqueues 1.5 and the pump shows 1.0; with 50 of 200 it shows 0.25. *)
Theorem pump_clamps_fraction (w : world) (now : pyfloat) :
  (forall (percent : pyfloat) (text : string),
     progress_bar (dpg (apply_event w (Progress percent text)))
     = py_max PyFloat.zero (py_min PyFloat.one percent)
     ∧ in_unit_interval (progress_bar (dpg (apply_event w (Progress percent text)))))
  ∧ (in_unit_interval (progress_bar (dpg w)) ->
     in_unit_interval (progress_bar (dpg (ui_pump now w))))
  ∧ ui_update_queue (progress_hook Sample.overshoot Sample.bare).1
    = [Progress PyFloat.three_halves "Downloading... 150.0%"]
  ∧ progress_bar
      (dpg (ui_pump PyFloat.one (progress_hook Sample.overshoot Sample.bare).1))
    = PyFloat.one
  ∧ (forall (percent : pyfloat) (text : string),
       in_unit_interval percent -> percent <> S754_zero true ->
       progress_bar (dpg (apply_event w (Progress percent text))) = percent)
  ∧ (forall text : string,
       progress_bar (dpg (apply_event w (Progress (S754_zero true) text)))
       = PyFloat.zero)
  ∧ (forall (percent : pyfloat) (text : string),
       PyFloat.ltb PyFloat.one percent = true ->
       progress_bar (dpg (apply_event w (Progress percent text))) = PyFloat.one)
  ∧ (forall (percent : pyfloat) (text : string),
       PyFloat.ltb percent PyFloat.zero = true ->
       progress_bar (dpg (apply_event w (Progress percent text))) = PyFloat.zero)
  ∧ (forall text : string,
       progress_bar (dpg (apply_event w (Progress S754_nan text))) = PyFloat.one)
  ∧ progress_bar
      (dpg (ui_pump PyFloat.one (progress_hook Sample.quarter Sample.bare).1))
    = PyFloat.quarter.
Proof.
  split.
  { intros percent text. split; [reflexivity|]. apply clamp_in_unit_interval. }
  split.
  { intros H. unfold ui_pump.
    destruct (PyFloat.ltb _ PyFloat.throttle); [exact H|].
    now apply drain_keeps_unit_interval. }
  split; [reflexivity|]. split; [reflexivity|].
  split.
  { intros percent text Hin Hnz. now apply clamp_keeps_unit_interval. }
  split; [reflexivity|].
  split.
  { intros percent text H. now apply clamp_above_one. }
  split.
  { intros percent text H. now apply clamp_below_zero. }
  split; reflexivity.
Qed.

Lemma pump_clamps_fraction_witness :
  in_unit_interval
    (progress_bar
       (dpg (ui_pump PyFloat.one (progress_hook Sample.overshoot Sample.bare).1)))
  ∧ progress_bar
      (dpg (apply_event Sample.bare (Progress PyFloat.quarter "Downloading... 25.0%")))
    = PyFloat.quarter
  ∧ progress_bar
      (dpg (apply_event Sample.bare
              (Progress PyFloat.three_halves "Downloading... 150.0%")))
    = PyFloat.one
  ∧ progress_bar
      (dpg (apply_event Sample.bare
              (Progress (SFopp PyFloat.quarter) "Downloading... -25.0%")))
    = PyFloat.zero.
Proof.
  destruct (pump_clamps_fraction (progress_hook Sample.overshoot Sample.bare).1
              PyFloat.one) as (_ & Hpump & _).
  destruct (pump_clamps_fraction Sample.bare PyFloat.one)
    as (_ & _ & _ & _ & Hkeep & _ & Habove & Hbelow & _).
  split; [|split; [|split]].
  - apply Hpump. split; reflexivity.
  - apply Hkeep; [split; reflexivity | discriminate].
  - apply Habove. reflexivity.
  - apply Hbelow. reflexivity.
Defined.

(* ===================================================================== *)
(** * Further properties of the module *)
(* ===================================================================== *)

(** ** The format resolver, for every quality string *)

Lemma max_height_audio_only : max_height "Audio only" = None.
Proof. reflexivity. Qed.

Lemma eqb_audio_only_capped (q : string) (n : Z) :
  max_height q = Some n -> String.eqb q "Audio only" = false.
Proof.
  intros H. apply String.eqb_neq. intros ->.
  rewrite max_height_audio_only in H. discriminate.
Qed.

(** The cases a quality string can fall in. *)
Ltac by_height q :=
  let Hc := fresh "Hc" in
  pose proof (max_height_cases q) as Hc;
  repeat (apply elem_of_cons in Hc as [Hc | Hc]);
  [ .. | now apply elem_of_nil in Hc ].

(** X1.  The selector asks for a two-stream merge (contains ['+'])
    exactly when the quality is not ["Audio only"] and either the mp4
    container is not forced or ffmpeg is available; this holds for every
    quality string, known to the table or not. *)
Theorem merge_requested_iff (q : string) (force_mp4 have_ffmpeg : bool) :
  PyStr.contains "+" (build_format_string q force_mp4 have_ffmpeg).1
  = negb (String.eqb q "Audio only") && (negb force_mp4 || have_ffmpeg).
Proof.
  unfold build_format_string.
  destruct (String.eqb q "Audio only"); [reflexivity|].
  by_height q; rewrite Hc; destruct force_mp4, have_ffmpeg; reflexivity.
Qed.

(** X2.  The only auxiliary option [build_format_string] ever sets is
    [merge_output_format = "mp4"], and it sets it exactly when mp4 is
    forced, ffmpeg is available and the quality is not ["Audio only"]. *)
Theorem merge_container_iff (q : string) (force_mp4 have_ffmpeg : bool) :
  (build_format_string q force_mp4 have_ffmpeg).2
  = if negb (String.eqb q "Audio only") && force_mp4 && have_ffmpeg
    then <["merge_output_format" := VStr "mp4"]> ∅
    else ∅.
Proof.
  unfold build_format_string.
  destruct (String.eqb q "Audio only"); [reflexivity|].
  destruct force_mp4, have_ffmpeg; cbn [negb andb];
    destruct (max_height q); reflexivity.
Qed.

(** X3.  A quality string missing from the table is resolved like
    ["Best"]: no height cap, same selector, same auxiliary options. *)
Theorem unknown_quality_is_best (q : string) (force_mp4 have_ffmpeg : bool) :
  quality_heights !! q = None ->
  build_format_string q force_mp4 have_ffmpeg
  = build_format_string "Best" force_mp4 have_ffmpeg.
Proof.
  intros Hq.
  assert (Hne : String.eqb q "Audio only" = false).
  { apply String.eqb_neq. intros ->. vm_compute in Hq. discriminate. }
  unfold build_format_string, max_height. rewrite Hq, Hne.
  destruct force_mp4, have_ffmpeg; reflexivity.
Qed.

Lemma unknown_quality_is_best_witness :
  build_format_string "4K" true false = build_format_string "Best" true false.
Proof. apply unknown_quality_is_best. reflexivity. Defined.

(** X4.  Whenever the table gives the quality a height cap [n], the
    selector carries the filter [[height<=n]], in every branch
    (mp4 with ffmpeg, mp4 fallback, original). *)
Theorem height_cap_in_selector (q : string) (n : Z) (force_mp4 have_ffmpeg : bool) :
  max_height q = Some n ->
  PyStr.contains ("[height<=" +:+ PyStr.of_Z n +:+ "]")
                 (build_format_string q force_mp4 have_ffmpeg).1 = true.
Proof.
  intros Hn. unfold build_format_string.
  rewrite (eqb_audio_only_capped q n Hn).
  by_height q; rewrite Hc in Hn; try discriminate; injection Hn as <-;
    rewrite Hc; destruct force_mp4, have_ffmpeg; reflexivity.
Qed.

Lemma height_cap_in_selector_witness :
  PyStr.contains ("[height<=" +:+ PyStr.of_Z 720 +:+ "]")
                 (build_format_string "720p" true true).1 = true.
Proof. apply height_cap_in_selector. reflexivity. Defined.

(** ** The option bundle *)

(** [make_ydl_opts] branch by branch, the unreachable notice of the mp4
    branch resolved. *)
Lemma make_ydl_opts_cases (url out_dir out_type quality : string) (w : world) :
  make_ydl_opts url out_dir out_type quality w
  = let have := bool_decide (is_Some (host_which w "ffmpeg")) in
    if String.eqb out_type "Video (MP4)" then
      (w, Ok (<["format" := VStr (build_format_string quality true have).1]>
                ((build_format_string quality true have).2 ∪ base_ydl_opts out_dir)))
    else if String.eqb out_type "Audio (MP3)" then
      if have
      then (w, Ok (<["postprocessors" := VPostprocessors [mp3_postprocessor]]>
                     (<["format" := VStr "bestaudio/best"]> (base_ydl_opts out_dir))))
      else (enqueue [audio_notice] w,
            Ok (<["format" := VStr "bestaudio/best"]> (base_ydl_opts out_dir)))
    else if String.eqb out_type "Best (Original)" then
      (w, Ok (<["format" := VStr (build_format_string quality false have).1]>
                ((build_format_string quality false have).2 ∪ base_ydl_opts out_dir)))
    else
      (w, Ok (<["format" := VStr "bestvideo+bestaudio/best"]> (base_ydl_opts out_dir))).
Proof.
  unfold make_ydl_opts, mbind, M_bind, bind, is_ffmpeg_available.
  cbn zeta.
  destruct (String.eqb out_type "Video (MP4)").
  { destruct (bool_decide (is_Some (host_which w "ffmpeg"))).
    - destruct (build_format_string quality true true) as [fmt extra]. reflexivity.
    - destruct (build_format_string_mp4_without_ffmpeg quality) as [Hplus _].
      destruct (build_format_string quality true false) as [fmt extra].
      simpl in Hplus. rewrite Hplus. reflexivity. }
  destruct (String.eqb out_type "Audio (MP3)").
  { destruct (bool_decide (is_Some (host_which w "ffmpeg"))); reflexivity. }
  destruct (String.eqb out_type "Best (Original)"); [|reflexivity].
  destruct (build_format_string quality false _) as [fmt extra]. reflexivity.
Qed.

Lemma extra_opts_cases (q : string) (force_mp4 have_ffmpeg : bool) :
  (build_format_string q force_mp4 have_ffmpeg).2 = ∅
  ∨ (build_format_string q force_mp4 have_ffmpeg).2
    = <["merge_output_format" := VStr "mp4"]> ∅.
Proof.
  unfold build_format_string.
  destruct (String.eqb q "Audio only"); [now left|].
  destruct force_mp4, have_ffmpeg; cbn [negb];
    destruct (max_height q); auto.
Qed.

Lemma base_has_no_format (out_dir : string) :
  base_ydl_opts out_dir !! "format" = None.
Proof. reflexivity. Qed.

Lemma base_has_no_merge (out_dir : string) :
  base_ydl_opts out_dir !! "merge_output_format" = None.
Proof. reflexivity. Qed.

Lemma base_has_no_postprocessors (out_dir : string) :
  base_ydl_opts out_dir !! "postprocessors" = None.
Proof. reflexivity. Qed.

Lemma base_has_hooks (out_dir : string) :
  base_ydl_opts out_dir !! "progress_hooks" = Some (VHooks [progress_hook_ref]).
Proof. reflexivity. Qed.

(** Adding the resolver's auxiliary options keeps the base bundle. *)
Lemma base_below_extra (q : string) (f h : bool) (out_dir : string) :
  base_ydl_opts out_dir ⊆ (build_format_string q f h).2 ∪ base_ydl_opts out_dir.
Proof.
  destruct (extra_opts_cases q f h) as [-> | ->].
  - now rewrite (left_id_L ∅ (∪)).
  - rewrite <- insert_union_l, (left_id_L ∅ (∪)).
    apply insert_subseteq, base_has_no_merge.
Qed.

(** X5.  Whatever the output kind, the quality and the host, the bundle
    [make_ydl_opts] returns has a ["format"] string, still holds every
    entry of the base bundle unchanged (timeouts, retry counts, chunk
    size, output template), and registers [progress_hook] as its only
    progress hook. *)
Theorem bundle_keeps_base (url out_dir out_type quality : string) (w : world) :
  exists (opts : gmap string optval) (fmt : string),
    (make_ydl_opts url out_dir out_type quality w).2 = Ok opts
    ∧ opts !! "format" = Some (VStr fmt)
    ∧ base_ydl_opts out_dir ⊆ opts
    ∧ registered_hooks opts = [progress_hook_ref].
Proof.
  assert (Hgen : forall (m : gmap string optval) (fmt : string),
            base_ydl_opts out_dir ⊆ m ->
            <["format" := VStr fmt]> m !! "format" = Some (VStr fmt)
            ∧ base_ydl_opts out_dir ⊆ <["format" := VStr fmt]> m
            ∧ registered_hooks (<["format" := VStr fmt]> m) = [progress_hook_ref]).
  { intros m fmt Hsub.
    assert (Hsub' : base_ydl_opts out_dir ⊆ <["format" := VStr fmt]> m).
    { apply insert_subseteq_r; [apply base_has_no_format | exact Hsub]. }
    split; [apply lookup_insert_eq|]. split; [exact Hsub'|].
    unfold registered_hooks.
    now rewrite (lookup_weaken _ _ _ _ (base_has_hooks out_dir) Hsub'). }
  rewrite make_ydl_opts_cases. cbn zeta.
  destruct (String.eqb out_type "Video (MP4)").
  { eexists _, _. split; [reflexivity|]. apply Hgen, base_below_extra. }
  destruct (String.eqb out_type "Audio (MP3)").
  { destruct (bool_decide _).
    - exists (<["postprocessors" := VPostprocessors [mp3_postprocessor]]>
                (<["format" := VStr "bestaudio/best"]> (base_ydl_opts out_dir))),
             "bestaudio/best".
      destruct (Hgen (base_ydl_opts out_dir) "bestaudio/best" (reflexivity _))
        as (Hf & Hsub & Hh).
      assert (Hsub' : base_ydl_opts out_dir
                      ⊆ <["postprocessors" := VPostprocessors [mp3_postprocessor]]>
                          (<["format" := VStr "bestaudio/best"]> (base_ydl_opts out_dir))).
      { apply insert_subseteq_r; [apply base_has_no_postprocessors | exact Hsub]. }
      split; [reflexivity|]. split; [reflexivity|]. split; [exact Hsub'|].
      unfold registered_hooks.
      now rewrite (lookup_weaken _ _ _ _ (base_has_hooks out_dir) Hsub').
    - eexists _, _. split; [reflexivity|]. now apply Hgen. }
  destruct (String.eqb out_type "Best (Original)").
  { eexists _, _. split; [reflexivity|]. apply Hgen, base_below_extra. }
  eexists _, _. split; [reflexivity|]. now apply Hgen.
Qed.

(** X6.  Assembling the options changes nothing but the queue, and the
    queue only in one case: for [Audio (MP3)] on a host without ffmpeg
    the notice about the missing conversion is appended; in every other
    case the state is returned as it was. *)
Theorem options_notice_iff (url out_dir out_type quality : string) (w : world) :
  (make_ydl_opts url out_dir out_type quality w).1
  = if String.eqb out_type "Audio (MP3)"
       && negb (bool_decide (is_Some (host_which w "ffmpeg")))
    then enqueue [audio_notice] w
    else w.
Proof.
  rewrite make_ydl_opts_cases. cbn zeta.
  destruct (String.eqb out_type "Video (MP4)") eqn:Ev.
  { apply String.eqb_eq in Ev. subst out_type. reflexivity. }
  destruct (String.eqb out_type "Audio (MP3)").
  { destruct (bool_decide _); reflexivity. }
  destruct (String.eqb out_type "Best (Original)"); reflexivity.
Qed.

(** X7.  The two optional keys of the bundle: ["postprocessors"] (the
    mp3 extraction) is present exactly for [Audio (MP3)] with ffmpeg;
    ["merge_output_format"] is present, with value ["mp4"], exactly for
    [Video (MP4)] with ffmpeg and a quality other than ["Audio only"]. *)
Theorem optional_keys_iff (url out_dir out_type quality : string) (w : world) :
  let have := bool_decide (is_Some (host_which w "ffmpeg")) in
  exists opts : gmap string optval,
    (make_ydl_opts url out_dir out_type quality w).2 = Ok opts
    ∧ opts !! "postprocessors"
      = (if String.eqb out_type "Audio (MP3)" && have
         then Some (VPostprocessors [mp3_postprocessor]) else None)
    ∧ opts !! "merge_output_format"
      = (if String.eqb out_type "Video (MP4)" && have
            && negb (String.eqb quality "Audio only")
         then Some (VStr "mp4") else None).
Proof.
  intros have. subst have.
  assert (Hextra : forall (f h : bool) (fmt : string),
    (<["format" := VStr fmt]>
       ((build_format_string quality f h).2 ∪ base_ydl_opts out_dir))
      !! "postprocessors" = None
    ∧ (<["format" := VStr fmt]>
         ((build_format_string quality f h).2 ∪ base_ydl_opts out_dir))
        !! "merge_output_format"
      = if negb (String.eqb quality "Audio only") && f && h
        then Some (VStr "mp4") else None).
  { intros f h fmt.
    rewrite !lookup_insert_ne by discriminate.
    unfold build_format_string.
    destruct (String.eqb quality "Audio only"); cbn [fst snd negb andb].
    { now rewrite (left_id_L ∅ (∪)). }
    destruct f, h; cbn [negb andb]; destruct (max_height quality);
      cbn [fst snd]; rewrite <- ?insert_union_l, (left_id_L ∅ (∪));
      rewrite ?lookup_insert_eq, ?lookup_insert_ne by discriminate;
      split; reflexivity. }
  rewrite make_ydl_opts_cases. cbn zeta.
  destruct (String.eqb out_type "Video (MP4)") eqn:Ev.
  { apply String.eqb_eq in Ev. subst out_type.
    change (String.eqb "Video (MP4)" "Audio (MP3)") with false.
    eexists. split; [reflexivity|].
    destruct (Hextra true (bool_decide (is_Some (host_which w "ffmpeg")))
                (build_format_string quality true
                   (bool_decide (is_Some (host_which w "ffmpeg")))).1) as [H1 H2].
    split; [exact H1|]. rewrite H2.
    destruct (bool_decide _), (String.eqb quality "Audio only"); reflexivity. }
  destruct (String.eqb out_type "Audio (MP3)").
  { destruct (bool_decide _); eexists; split; try reflexivity;
      split; reflexivity. }
  cbn [andb].
  destruct (String.eqb out_type "Best (Original)").
  { eexists. split; [reflexivity|].
    destruct (Hextra false (bool_decide (is_Some (host_which w "ffmpeg")))
                (build_format_string quality false
                   (bool_decide (is_Some (host_which w "ffmpeg")))).1) as [H1 H2].
    split; [exact H1|]. rewrite H2.
    now rewrite andb_false_r. }
  eexists. split; [reflexivity|]. split; reflexivity.
Qed.

(** ** The progress handler, on every record *)

Lemma enqueue_nil (w : world) : enqueue [] w = w.
Proof. destruct w. unfold enqueue, set_queue. simpl. now rewrite app_nil_r. Qed.

Lemma enqueue_enqueue (a b : list event) (w : world) :
  enqueue b (enqueue a w) = enqueue (a ++ b) w.
Proof. unfold enqueue, set_queue. simpl. now rewrite app_assoc. Qed.

(** A division by a truthy number returns or overflows; it never divides
    by zero. *)
Lemma truediv_by_truthy (a b : num) :
  PyNum.truthy b = true ->
  (exists f : pyfloat, PyNum.truediv a b = Ok f)
  ∨ (exists msg : string, PyNum.truediv a b = Raise (PyException "OverflowError" msg)).
Proof.
  intros Ht.
  assert (Hconv : forall y : Z, y <> 0 ->
            forall g : pyfloat, PyNum.to_float y = Ok g -> PyFloat.is_zero g = false).
  { intros y Hy g Hg. unfold PyNum.to_float in Hg.
    destruct (PyFloat.is_inf (PyFloat.of_Z_round y)); [discriminate|].
    injection Hg as <-.
    destruct y as [|p|p]; [lia| |]; apply binary_round_nonzero. }
  assert (Hover : forall y : Z,
            (exists g, PyNum.to_float y = Ok g)
            ∨ (exists msg, PyNum.to_float y = Raise (PyException "OverflowError" msg))).
  { intros y. unfold PyNum.to_float.
    destruct (PyFloat.is_inf (PyFloat.of_Z_round y)); eauto. }
  destruct a as [x|f], b as [y|g]; simpl in Ht; unfold PyNum.truediv.
  - destruct (y =? 0); [discriminate|].
    destruct (PyFloat.is_inf _); eauto.
  - destruct (Hover x) as [[fx ->] | [msg ->]]; [|eauto].
    unfold PyNum.float_truediv, PyFloat.truthy in *.
    destruct (PyFloat.is_zero g); [discriminate | eauto].
  - destruct (Hover y) as [[gy Hg] | [msg ->]]; [|eauto].
    rewrite Hg. unfold PyNum.float_truediv.
    rewrite (Hconv y) by (try exact Hg; intros ->; discriminate). eauto.
  - unfold PyNum.float_truediv, PyFloat.truthy in *.
    destruct (PyFloat.is_zero g); [discriminate | eauto].
Qed.

Lemma hook_percent_errors (d : status_dict) :
  (exists p : pyfloat, hook_percent d = Ok p)
  ∨ (exists msg : string, hook_percent d = Raise (PyException "OverflowError" msg)).
Proof.
  unfold hook_percent.
  destruct (PyNum.truthy (hook_total d)) eqn:Et; [|simpl; eauto].
  destruct (PyNum.truthy (hook_downloaded d)); [|simpl; eauto].
  simpl. now apply truediv_by_truthy.
Qed.

Lemma hook_eta_text_errors (eta : option Z) :
  (exists t : string, hook_eta_text eta = Ok t)
  ∨ (exists msg : string,
       hook_eta_text eta = Raise (PyException "ValueError" msg)
       ∧ exists n : Z, eta = Some n ∧ 10 ^ 4300 <= Z.abs n).
Proof.
  unfold hook_eta_text, PyNum.to_str, mbind, pyres_bind, mret, pyres_ret.
  destruct eta as [n|]; [|eauto].
  destruct (negb (n =? 0)); [|eauto].
  destruct (Z.abs n <? 10 ^ 4300) eqn:E; [eauto|].
  apply Z.ltb_ge in E. right. eauto.
Qed.

Lemma hook_text_errors (percent : pyfloat) (d : status_dict) :
  (exists t : string, hook_text percent d = Ok t)
  ∨ (exists msg : string, hook_text percent d = Raise (PyException "OverflowError" msg))
  ∨ (exists msg : string,
       hook_text percent d = Raise (PyException "ValueError" msg)
       ∧ exists n : Z, st_eta d = Some n ∧ 10 ^ 4300 <= Z.abs n).
Proof.
  assert (Hsp : (exists t, hook_speed_text (st_speed d) = Ok t)
                ∨ (exists msg, hook_speed_text (st_speed d)
                               = Raise (PyException "OverflowError" msg))).
  { unfold hook_speed_text, mbind, pyres_bind, mret, pyres_ret.
    destruct (st_speed d) as [s|]; [|eauto].
    destruct (PyNum.truthy s); [|eauto].
    destruct (truediv_by_truthy s (NInt 1024) eq_refl) as [[kib ->] | [msg ->]];
      [|eauto].
    destruct (truediv_by_truthy (NFloat kib) (NInt 1024) eq_refl)
      as [[mib ->] | [msg ->]]; eauto. }
  unfold hook_text, mbind, pyres_bind, mret, pyres_ret.
  destruct Hsp as [[sp ->] | [msg ->]]; [|eauto].
  destruct (hook_eta_text_errors (st_eta d)) as [[et ->] | (msg & -> & Hn)]; eauto.
Qed.

(** X8.  With the flag unset, for every status record, the handler
    either returns, or raises [OverflowError] (a number out of the range
    of a [float]), or raises [ValueError] (an [eta] of more than 4300
    digits, which [str] refuses); in both failures nothing has been
    enqueued and the state is as it was.  A zero or missing total never
    causes a [ZeroDivisionError]. *)
Theorem handler_failure_modes (d : status_dict) (w : world) :
  cancel_event w = false ->
  (progress_hook d w).2 = Ok tt
  ∨ (exists msg : string,
       progress_hook d w = (w, Raise (PyException "OverflowError" msg)))
  ∨ (exists msg : string,
       progress_hook d w = (w, Raise (PyException "ValueError" msg))
       ∧ exists n : Z, st_eta d = Some n ∧ 10 ^ 4300 <= Z.abs n).
Proof.
  intros Hc. unfold progress_hook, mbind, M_bind, bind, cancel_is_set.
  rewrite Hc. cbn iota beta.
  destruct (status_is (st_status d) "downloading").
  - unfold lift_res.
    destruct (hook_percent_errors d) as [[p ->] | [msg ->]]; [|eauto].
    destruct (hook_text_errors p d) as [[t ->] | [[msg ->] | (msg & -> & Hn)]];
      eauto.
  - destruct (status_is (st_status d) "finished"); now left.
Qed.

Lemma handler_failure_modes_witness :
  (progress_hook Scenario.unsized Sample.bare).2 = Ok tt
  ∨ (exists msg : string,
       progress_hook Scenario.unsized Sample.bare
       = (Sample.bare, Raise (PyException "OverflowError" msg)))
  ∨ (exists msg : string,
       progress_hook Scenario.unsized Sample.bare
       = (Sample.bare, Raise (PyException "ValueError" msg))
       ∧ exists n : Z, st_eta Scenario.unsized = Some n ∧ 10 ^ 4300 <= Z.abs n).
Proof. apply handler_failure_modes. reflexivity. Defined.

(** X9.  One call of the handler changes nothing but the queue, appends
    at most two events to it, never a [Done], and appends nothing at all
    when it raises. *)
Theorem handler_effect (d : status_dict) (w : world) :
  exists evs : list event,
    (progress_hook d w).1 = enqueue evs w
    ∧ (length evs <= 2)%nat
    ∧ count_done evs = 0%nat
    ∧ ((progress_hook d w).2 <> Ok tt -> evs = []).
Proof.
  assert (Hnone : forall r : pyres unit,
            exists evs : list event,
              w = enqueue evs w ∧ (length evs <= 2)%nat ∧ count_done evs = 0%nat
              ∧ (r <> Ok tt -> evs = [])).
  { intros r. exists []. rewrite enqueue_nil. simpl. auto with lia. }
  unfold progress_hook, mbind, M_bind, bind, cancel_is_set.
  destruct (cancel_event w); [apply Hnone|].
  cbn iota beta.
  destruct (status_is (st_status d) "downloading").
  - unfold lift_res.
    destruct (hook_percent d) as [p|e]; [|apply Hnone].
    destruct (hook_text p d) as [t|e]; [|apply Hnone].
    exists [Progress p t]. simpl.
    split; [reflexivity|]. split; [lia|]. split; [reflexivity|].
    intros H. now elim H.
  - destruct (status_is (st_status d) "finished"); [|apply Hnone].
    eexists [_; _]. unfold queue_put, modify, enqueue, set_queue. simpl.
    rewrite <- app_assoc.
    split; [reflexivity|]. split; [lia|]. split; [reflexivity|].
    intros H. now elim H.
Qed.

Lemma handler_effect_witness :
  exists evs : list event,
    (progress_hook Sample.quarter Sample.cancelling).1
    = enqueue evs Sample.cancelling
    ∧ (length evs <= 2)%nat
    ∧ count_done evs = 0%nat
    ∧ ((progress_hook Sample.quarter Sample.cancelling).2 <> Ok tt -> evs = []).
Proof. apply (handler_effect Sample.quarter Sample.cancelling). Defined.

(** X10.  With the flag unset, a ["finished"] record makes the handler
    enqueue two events in this order: the log line with the file name
    (empty when the record has none), then progress 1.0 with the text
    ["Download finished"]; once drained, the bar shows exactly 1.0 under
    that text. *)
Theorem finished_record_events (d : status_dict) (w : world) :
  cancel_event w = false ->
  st_status d = Some "finished" ->
  progress_hook d w
  = (enqueue [Log ("Downloaded to: " +:+ default "" (st_filename d));
              Progress PyFloat.one "Download finished"] w, Ok tt)
  ∧ progress_bar (dpg (drain (ui_update_queue (progress_hook d w).1) w))
    = PyFloat.one
  ∧ progress_bar_overlay (dpg (drain (ui_update_queue (progress_hook d w).1) w))
    = "Download finished".
Proof.
  intros Hc Hs.
  assert (Heq : progress_hook d w
    = (enqueue [Log ("Downloaded to: " +:+ default "" (st_filename d));
                Progress PyFloat.one "Download finished"] w, Ok tt)).
  { unfold progress_hook, mbind, M_bind, bind, cancel_is_set.
    rewrite Hc, Hs. cbn iota beta.
    change (status_is (Some "finished") "downloading") with false.
    change (status_is (Some "finished") "finished") with true.
    cbn iota. unfold queue_put, modify, enqueue, set_queue. simpl.
    rewrite <- app_assoc.
    assert (Hf : match st_filename d with
                 | Some f => if PyStr.truthy f then f else ""
                 | None => ""
                 end = default "" (st_filename d)).
    { destruct (st_filename d) as [[|c f]|]; reflexivity. }
    now rewrite Hf. }
  split; [exact Heq|]. rewrite Heq. cbn [fst].
  unfold enqueue, set_queue, drain. cbn [ui_update_queue].
  rewrite !fold_left_app. split; reflexivity.
Qed.

Lemma finished_record_events_witness :
  progress_hook Scenario.finished Sample.bare
  = (enqueue [Log "Downloaded to: /home/user/Downloads/clip-abc.mp4";
              Progress PyFloat.one "Download finished"] Sample.bare, Ok tt).
Proof.
  apply (finished_record_events Scenario.finished Sample.bare); reflexivity.
Defined.

(** X11.  With the flag unset, a ["downloading"] record that gives no
    total (neither [total_bytes] nor [total_bytes_estimate]) or no
    [downloaded_bytes] yields the fraction 0.0, and the text starts with
    ["Downloading... 0.0%"]. *)
Theorem unknown_size_is_zero (d : status_dict) (w : world) :
  cancel_event w = false ->
  st_status d = Some "downloading" ->
  (opt_truthy (st_total_bytes d) = false
   ∧ opt_truthy (st_total_bytes_estimate d) = false)
  ∨ opt_truthy (st_downloaded_bytes d) = false ->
  record_fits_64 d ->
  exists tail : string,
    progress_hook d w
    = (enqueue [Progress PyFloat.zero ("Downloading... 0.0%" +:+ tail)] w, Ok tt).
Proof.
  intros Hc Hs Hmiss Hfit.
  assert (Hp : hook_percent d = Ok PyFloat.zero).
  { unfold hook_percent, hook_total, hook_downloaded, PyNum.or_else, opt_truthy in *.
    destruct Hmiss as [[Ht He] | Hd].
    - destruct (st_total_bytes d) as [t|]; [rewrite Ht|];
        (destruct (st_total_bytes_estimate d) as [e|]; [rewrite He|]); reflexivity.
    - assert (Hz : PyNum.truthy
                     match st_downloaded_bytes d with
                     | Some x => if PyNum.truthy x then x else NInt 0
                     | None => NInt 0
                     end = false).
      { destruct (st_downloaded_bytes d) as [x|]; [rewrite Hd|]; reflexivity. }
      rewrite Hz. now rewrite andb_false_r. }
  destruct Hfit as (_ & _ & _ & Hsp & Heta).
  destruct (hook_speed_text_total (st_speed d) Hsp) as [sp Hsp'].
  destruct (hook_eta_text_total (st_eta d) Heta) as [et Het].
  exists (sp +:+ et).
  unfold progress_hook, mbind, M_bind, bind, cancel_is_set.
  rewrite Hc, Hs. cbn iota beta.
  change (status_is (Some "downloading") "downloading") with true.
  cbn iota. unfold lift_res. rewrite Hp.
  unfold hook_text, mbind, pyres_bind. rewrite Hsp', Het.
  reflexivity.
Qed.

Lemma unknown_size_is_zero_witness :
  exists tail : string,
    progress_hook Scenario.unsized Sample.bare
    = (enqueue [Progress PyFloat.zero ("Downloading... 0.0%" +:+ tail)]
               Sample.bare, Ok tt).
Proof.
  apply (unknown_size_is_zero Scenario.unsized Sample.bare);
    [reflexivity | reflexivity | left; split; reflexivity | repeat split].
Defined.

(** ** The worker, end to end *)

Lemma registered_hooks_insert (k : string) (v : optval) (m : gmap string optval) :
  k <> "progress_hooks" ->
  registered_hooks (<[k := v]> m) = registered_hooks m.
Proof. intros H. unfold registered_hooks. now rewrite lookup_insert_ne. Qed.

Lemma registered_hooks_extra (q : string) (f h : bool) (out_dir : string) :
  registered_hooks ((build_format_string q f h).2 ∪ base_ydl_opts out_dir)
  = [progress_hook_ref].
Proof.
  destruct (extra_opts_cases q f h) as [-> | ->].
  - now rewrite (left_id_L ∅ (∪)).
  - rewrite <- insert_union_l, (left_id_L ∅ (∪)).
    now rewrite registered_hooks_insert.
Qed.

(** What assembling the options leaves behind: at most one notice on the
    queue, and a bundle that registers the handler. *)
Lemma make_ydl_opts_summary (url out_dir out_type quality : string) (w : world) :
  exists (opts : gmap string optval) (notices : list event),
    make_ydl_opts url out_dir out_type quality w = (enqueue notices w, Ok opts)
    ∧ registered_hooks opts = [progress_hook_ref]
    ∧ count_done notices = 0%nat.
Proof.
  rewrite make_ydl_opts_cases. cbn zeta.
  destruct (String.eqb out_type "Video (MP4)").
  { eexists _, []. rewrite enqueue_nil. split; [reflexivity|].
    split; [|reflexivity].
    rewrite registered_hooks_insert by discriminate.
    apply registered_hooks_extra. }
  destruct (String.eqb out_type "Audio (MP3)").
  { destruct (bool_decide _).
    - eexists _, []. rewrite enqueue_nil. repeat split.
    - eexists _, [audio_notice]. repeat split. }
  destruct (String.eqb out_type "Best (Original)").
  { eexists _, []. rewrite enqueue_nil. split; [reflexivity|].
    split; [|reflexivity].
    rewrite registered_hooks_insert by discriminate.
    apply registered_hooks_extra. }
  eexists _, []. rewrite enqueue_nil. repeat split.
Qed.

(** With the flag unset and numbers in range the handler returns. *)
Lemma progress_hook_returns (d : status_dict) (w : world) :
  cancel_event w = false -> record_fits_64 d ->
  exists evs : list event,
    progress_hook d w = (enqueue evs w, Ok tt) ∧ count_done evs = 0%nat.
Proof.
  intros Hc Hfit.
  unfold progress_hook, mbind, M_bind, bind, cancel_is_set.
  rewrite Hc. cbn iota beta.
  destruct (status_is (st_status d) "downloading").
  - unfold lift_res.
    destruct (hook_percent_total d Hfit) as [p ->].
    destruct (hook_text_total p d Hfit) as [t ->].
    exists [Progress p t]. split; reflexivity.
  - destruct (status_is (st_status d) "finished").
    + eexists [_; _]. unfold queue_put, modify, enqueue, set_queue. simpl.
      rewrite <- app_assoc. split; reflexivity.
    + exists []. now rewrite enqueue_nil.
Qed.

Lemma run_transfer_undisturbed (steps : list transfer_step) (w : world) :
  cancel_event w = false -> undisturbed steps -> transfer_fits steps ->
  exists evs : list event,
    run_transfer [progress_hook_ref] steps w = (enqueue evs w, Ok tt)
    ∧ count_done evs = 0%nat.
Proof.
  revert w. induction steps as [|s steps IH]; intros w Hc Hu Hf.
  - exists []. now rewrite enqueue_nil.
  - inversion Hu as [|? ? Hs Hu']; subst. inversion Hf as [|? ? Hd Hf']; subst.
    destruct s as [d|]; [|discriminate].
    destruct (progress_hook_returns d w Hc Hd) as (e1 & He1 & Hc1).
    destruct (IH (enqueue e1 w) Hc Hu' Hf') as (e2 & He2 & Hc2).
    exists (e1 ++ e2). split.
    + cbn [run_transfer call_hooks call_hook].
      unfold mbind, M_bind, bind. rewrite He1.
      unfold mret, M_ret, ret. rewrite He2. now rewrite enqueue_enqueue.
    + rewrite count_done_app. lia.
Qed.

(** X12.  When Cancel is never pressed and the reported numbers are in
    range, the way [ydl.download] ends decides how the worker's events
    end: a return gives [Done true]; a [DownloadError] gives the
    ["Cancelled: "] line and [Done false]; any other exception gives the
    ["Error: "] line with the exception text and [Done false].  The
    worker changes nothing but the queue. *)
Theorem outcome_decides_ending (ydl : collaborator)
    (url out_dir out_type quality : string) (w : world) :
  cancel_event w = false ->
  undisturbed (transfer ydl) ->
  transfer_fits (transfer ydl) ->
  exists evs : list event,
    downloader_worker ydl url out_dir out_type quality w
    = (enqueue (evs ++ closing_events (outcome ydl)) w, Ok tt)
    ∧ count_done evs = 0%nat.
Proof.
  intros Hc Hu Hf. rewrite downloader_worker_unfold.
  destruct (make_ydl_opts_summary url out_dir out_type quality w)
    as (opts & notices & Hm & Hh & Hn).
  destruct (run_transfer_undisturbed (transfer ydl)
              (enqueue [Log ("Starting: " +:+ url)] (enqueue notices w))
              Hc Hu Hf) as (evs & Hr & He).
  assert (Hfetch : worker_fetch ydl url out_dir out_type quality w
    = (enqueue ((notices ++ [Log ("Starting: " +:+ url)]) ++ evs) w, outcome ydl)).
  { unfold worker_fetch, mbind, M_bind, bind. rewrite Hm.
    unfold queue_put at 1. unfold modify.
    change (set_queue (ui_update_queue (enqueue notices w)
                         ++ [Log ("Starting: " +:+ url)]) (enqueue notices w))
      with (enqueue [Log ("Starting: " +:+ url)] (enqueue notices w)).
    unfold ydl_download, mbind, M_bind, bind. rewrite Hh, Hr.
    unfold lift_res. now rewrite !enqueue_enqueue, app_assoc. }
  rewrite Hfetch.
  exists ((notices ++ [Log ("Starting: " +:+ url)]) ++ evs). split.
  - destruct (outcome ydl) as [[]|[msg|cls msg]]; cbn [closing_events];
      unfold enqueue, set_queue; cbn; now rewrite <- ?app_assoc.
  - rewrite !count_done_app, Hn, He. reflexivity.
Qed.

Lemma outcome_decides_ending_witness :
  exists evs : list event,
    downloader_worker Scenario.broken "https://www.youtube.com/watch?v=abc"
                      "/home/user/Downloads" "Video (MP4)" "720p" Scenario.ready
    = (enqueue (evs ++ [Log "Error: connection reset"; Done false]) Scenario.ready,
       Ok tt)
    ∧ count_done evs = 0%nat.
Proof.
  apply (outcome_decides_ending Scenario.broken); [reflexivity | |].
  - repeat constructor.
  - repeat constructor; simpl; lia.
Defined.

Lemma run_transfer_app (hs : list hook_ref) (a b : list transfer_step) (w : world) :
  run_transfer hs (a ++ b) w
  = match run_transfer hs a w with
    | (w1, Ok _) => run_transfer hs b w1
    | (w1, Raise e) => (w1, Raise e)
    end.
Proof.
  revert w. induction a as [|s a IH]; intros w; [reflexivity|].
  destruct s as [d|]; cbn [app run_transfer]; unfold mbind, M_bind, bind.
  - destruct (call_hooks hs d w) as [w1 [[]|e]]; [apply IH | reflexivity].
  - unfold modify. apply IH.
Qed.

(** Once the flag is set, the first callback ends the transfer. *)
Lemma run_transfer_cancelled (steps : list transfer_step) (w : world) :
  cancel_event w = true ->
  existsb is_callback steps = true ->
  exists w' : world,
    run_transfer [progress_hook_ref] steps w
    = (w', Raise (DownloadError "Cancelled by user"))
    ∧ ui_update_queue w' = ui_update_queue w.
Proof.
  revert w. induction steps as [|s steps IH]; intros w Hc Hex; [discriminate|].
  destruct s as [d|]; cbn [run_transfer call_hooks call_hook].
  - exists w. unfold mbind, M_bind, bind.
    now rewrite (progress_hook_cancelled w d Hc).
  - simpl in Hex.
    destruct (IH (on_cancel_download w) eq_refl Hex) as (w' & Hr & Hq).
    exists w'. unfold mbind, M_bind, bind, modify. now rewrite Hr.
Qed.

(** X13.  Cancellation wins over whatever the collaborator would have
    done next: if Cancel is pressed during a transfer that had run
    without incident, and the collaborator calls back at least once
    more, the worker ends with ["Cancelled: Cancelled by user"] and
    [Done false], whatever the remaining steps and the outcome of
    [ydl.download] would have been. *)
Theorem cancel_wins (ydl : collaborator) (pre post : list transfer_step)
    (url out_dir out_type quality : string) (w : world) :
  cancel_event w = false ->
  transfer ydl = pre ++ CancelPressed :: post ->
  undisturbed pre -> transfer_fits pre ->
  existsb is_callback post = true ->
  exists evs : list event,
    ui_update_queue (downloader_worker ydl url out_dir out_type quality w).1
    = ui_update_queue w ++ evs
        ++ [Log "Cancelled: Cancelled by user"; Done false]
    ∧ count_done evs = 0%nat.
Proof.
  intros Hc Ht Hu Hf Hex. rewrite downloader_worker_unfold.
  destruct (make_ydl_opts_summary url out_dir out_type quality w)
    as (opts & notices & Hm & Hh & Hn).
  destruct (run_transfer_undisturbed pre
              (enqueue [Log ("Starting: " +:+ url)] (enqueue notices w))
              Hc Hu Hf) as (evs & Hr & He).
  destruct (run_transfer_cancelled post
              (on_cancel_download
                 (enqueue evs (enqueue [Log ("Starting: " +:+ url)]
                                       (enqueue notices w))))
              eq_refl Hex) as (w' & Hr' & Hq').
  assert (Hfetch : worker_fetch ydl url out_dir out_type quality w
                   = (w', Raise (DownloadError "Cancelled by user"))).
  { unfold worker_fetch, mbind, M_bind, bind. rewrite Hm.
    unfold queue_put at 1. unfold modify.
    change (set_queue (ui_update_queue (enqueue notices w)
                         ++ [Log ("Starting: " +:+ url)]) (enqueue notices w))
      with (enqueue [Log ("Starting: " +:+ url)] (enqueue notices w)).
    unfold ydl_download, mbind, M_bind, bind.
    rewrite Hh, Ht, run_transfer_app, Hr.
    cbn [run_transfer]. unfold mbind, M_bind, bind, modify.
    now rewrite Hr'. }
  rewrite Hfetch. cbn [fst ui_update_queue set_queue].
  rewrite Hq'. unfold on_cancel_download, append_log, set_dpg, set_cancel_event,
    enqueue, set_queue. cbn [ui_update_queue].
  exists ((notices ++ [Log ("Starting: " +:+ url)]) ++ evs). split.
  - now rewrite <- !app_assoc.
  - rewrite !count_done_app, Hn, He. reflexivity.
Qed.

Lemma cancel_wins_witness :
  exists evs : list event,
    ui_update_queue
      (downloader_worker Scenario.cancelled "https://www.youtube.com/watch?v=abc"
                         "/home/user/Downloads" "Video (MP4)" "720p"
                         Scenario.ready).1
    = ui_update_queue Scenario.ready ++ evs
        ++ [Log "Cancelled: Cancelled by user"; Done false]
    ∧ count_done evs = 0%nat.
Proof.
  apply (cancel_wins Scenario.cancelled [Callback Sample.quarter]
                     [Callback Sample.quarter; Callback Scenario.finished]);
    [reflexivity | reflexivity | | | reflexivity].
  - repeat constructor.
  - repeat constructor; simpl; lia.
Defined.

(** X14.  The ["Starting: " + url] line is the first thing the worker
    enqueues after the options are assembled: it precedes every event of
    the transfer and the closing events, for every collaborator. *)
Theorem starting_line_first (ydl : collaborator)
    (url out_dir out_type quality : string) (w : world) :
  exists evs : list event,
    ui_update_queue (downloader_worker ydl url out_dir out_type quality w).1
    = ui_update_queue (make_ydl_opts url out_dir out_type quality w).1
        ++ Log ("Starting: " +:+ url) :: evs.
Proof.
  rewrite downloader_worker_unfold.
  destruct (make_ydl_opts_summary url out_dir out_type quality w)
    as (opts & notices & Hm & Hh & Hn).
  unfold worker_fetch, mbind, M_bind, bind. rewrite Hm. cbn [fst].
  unfold queue_put at 1. unfold modify.
  destruct (quiet_bind (run_transfer (registered_hooks opts) (transfer ydl))
              (fun _ => lift_res (outcome ydl))
              (quiet_run_transfer _ _) (fun _ => quiet_lift_res _)
              (set_queue (ui_update_queue (enqueue notices w)
                            ++ [Log ("Starting: " +:+ url)]) (enqueue notices w)))
    as (evs & Hq & _).
  unfold ydl_download.
  destruct ((run_transfer (registered_hooks opts) (transfer ydl)
               ≫= (fun _ => lift_res (outcome ydl))) _) as [w1 r].
  cbn [fst ui_update_queue set_queue] in Hq.
  destruct r as [[]|[msg|cls msg]]; cbn [fst ui_update_queue set_queue];
    rewrite Hq, <- !app_assoc; eexists; reflexivity.
Qed.

(** ** Starting, picking a folder, the default folder *)

Lemma strip_front_encoding (enc rest : list ascii) :
  enc ∈ PyStr.space_encodings ->
  PyStr.strip_front false (enc ++ rest) = PyStr.strip_front false rest.
Proof.
  intros H. unfold PyStr.space_encodings, PyStr.space_bytes in H.
  cbn [List.map] in H.
  repeat (apply elem_of_cons in H as [-> | H]; [reflexivity|]).
  now apply elem_of_nil in H.
Qed.

Lemma strip_front_run (run : list (list ascii)) :
  Forall (fun enc => enc ∈ PyStr.space_encodings) run ->
  PyStr.strip_front false (concat run) = [].
Proof.
  induction 1 as [|enc run Henc _ IH]; [reflexivity|].
  cbn [concat]. now rewrite strip_front_encoding.
Qed.

Lemma strip_blank (s : string) : blank s -> PyStr.strip s = "".
Proof.
  intros (run & Hrun & Hs). unfold PyStr.strip.
  now rewrite Hs, (strip_front_run run Hrun).
Qed.

(** X15.  A URL field holding only white space, ASCII or not (tabs,
    no-break spaces, ideographic spaces, ...), is rejected like an empty
    one: the only effect is the line ["Please enter a URL."] in the log
    box, and no worker is started. *)
Theorem blank_url_rejected (w : world) :
  blank (url_input (dpg w)) ->
  on_start_download w = append_log "Please enter a URL." w
  ∧ started_threads (on_start_download w) = started_threads w.
Proof.
  intros H. unfold on_start_download.
  rewrite (strip_blank _ H). split; reflexivity.
Qed.

Lemma blank_url_rejected_witness :
  on_start_download Scenario.blank_url
  = append_log "Please enter a URL." Scenario.blank_url
  ∧ started_threads (on_start_download Scenario.blank_url)
    = started_threads Scenario.blank_url.
Proof.
  apply blank_url_rejected.
  exists [PyStr.of_bytes [194; 160]; PyStr.of_bytes [9];
          PyStr.of_bytes [227; 128; 128]].
  split; [|reflexivity].
  repeat constructor; apply list_elem_of_In; vm_compute; tauto.
Defined.

Lemma on_start_download_valid (w : world) :
  request_valid w ->
  on_start_download w
  = World (host_which w) (host_isdir w) (ui_update_queue w)
          (Some (request_args w)) false (last_pump_time w)
          (started_threads w ++ [request_args w])
          (DpgItems (url_input (dpg w)) (type_combo (dpg w)) (quality_combo (dpg w))
                    (output_text (dpg w)) (log_box (dpg w)) PyFloat.zero
                    "Waiting..." false true).
Proof.
  intros (Hu & Ho & Hd). unfold on_start_download.
  rewrite Hu, Ho, Hd. reflexivity.
Qed.

(** X16.  A request that passes the three checks starts exactly one
    worker, with the stripped URL and folder and the two combo values as
    arguments; it clears the flag, disables Start, enables Cancel and
    resets the bar to 0.0 under ["Waiting..."]; the queue and the log box
    are not touched. *)
Theorem valid_request_starts_one_worker (w : world) :
  request_valid w ->
  started_threads (on_start_download w) = started_threads w ++ [request_args w]
  ∧ download_thread (on_start_download w) = Some (request_args w)
  ∧ cancel_event (on_start_download w) = false
  ∧ start_btn_enabled (dpg (on_start_download w)) = false
  ∧ cancel_btn_enabled (dpg (on_start_download w)) = true
  ∧ progress_bar (dpg (on_start_download w)) = PyFloat.zero
  ∧ progress_bar_overlay (dpg (on_start_download w)) = "Waiting..."
  ∧ ui_update_queue (on_start_download w) = ui_update_queue w
  ∧ log_box (dpg (on_start_download w)) = log_box (dpg w).
Proof.
  intros Hv. rewrite (on_start_download_valid w Hv). repeat split.
Qed.

Lemma valid_request_starts_one_worker_witness :
  started_threads (on_start_download Scenario.ready)
  = [WorkerArgs "https://www.youtube.com/watch?v=abc" "/home/user/Downloads"
                "Video (MP4)" "Best"].
Proof.
  apply (valid_request_starts_one_worker Scenario.ready). repeat split.
Defined.

(** X17.  Starting again after a cancellation clears the flag: the
    callbacks of the new transfer are not aborted by the old Cancel, they
    return and enqueue their events. *)
Theorem restart_clears_cancellation (w : world) (d : status_dict) :
  request_valid w ->
  record_fits_64 d ->
  cancel_event (on_cancel_download w) = true
  ∧ cancel_event (on_start_download (on_cancel_download w)) = false
  ∧ exists evs : list event,
      progress_hook d (on_start_download (on_cancel_download w))
      = (enqueue evs (on_start_download (on_cancel_download w)), Ok tt).
Proof.
  intros Hv Hfit.
  assert (Hv' : request_valid (on_cancel_download w)) by exact Hv.
  split; [reflexivity|].
  assert (Hc : cancel_event (on_start_download (on_cancel_download w)) = false).
  { now rewrite (on_start_download_valid _ Hv'). }
  split; [exact Hc|].
  destruct (progress_hook_returns d _ Hc Hfit) as (evs & He & _). eauto.
Qed.

Lemma restart_clears_cancellation_witness :
  cancel_event (on_cancel_download Scenario.ready) = true
  ∧ cancel_event (on_start_download (on_cancel_download Scenario.ready)) = false
  ∧ exists evs : list event,
      progress_hook Sample.quarter
        (on_start_download (on_cancel_download Scenario.ready))
      = (enqueue evs (on_start_download (on_cancel_download Scenario.ready)),
         Ok tt).
Proof.
  apply (restart_clears_cancellation Scenario.ready Sample.quarter).
  - repeat split.
  - repeat split; simpl; lia.
Defined.

(** X18.  A dialog result without a path, or with an empty one, changes
    nothing.  A picked path replaces the output folder and nothing else,
    and the next valid Start hands that path, stripped, to the worker. *)
Theorem picked_folder_is_used (w : world) (path : string) :
  on_pick_dir None w = w
  ∧ on_pick_dir (Some "") w = w
  ∧ (PyStr.truthy path = true ->
     on_pick_dir (Some path) w = set_dpg (set_output_text path (dpg w)) w
     ∧ (PyStr.truthy (PyStr.strip (url_input (dpg w))) = true ->
        PyStr.truthy (PyStr.strip path) = true ->
        host_isdir w (PyStr.strip path) = true ->
        download_thread (on_start_download (on_pick_dir (Some path) w))
        = Some (WorkerArgs (PyStr.strip (url_input (dpg w))) (PyStr.strip path)
                           (type_combo (dpg w)) (quality_combo (dpg w))))).
Proof.
  split; [reflexivity|]. split; [reflexivity|].
  intros Hp. unfold on_pick_dir. rewrite Hp. split; [reflexivity|].
  intros Hu Ho Hd.
  rewrite on_start_download_valid; [reflexivity|].
  repeat split; assumption.
Qed.

Lemma picked_folder_is_used_witness :
  download_thread
    (on_start_download (on_pick_dir (Some Scenario.padded_folder) Sample.bare))
  = Some (WorkerArgs "https://www.youtube.com/watch?v=abc" "/home/user/Downloads"
                     "Video (MP4)" "Best").
Proof.
  apply (picked_folder_is_used Sample.bare Scenario.padded_folder); reflexivity.
Defined.

(** X19.  [default_downloads_dir] returns the first of [~/Downloads],
    [~/downloads], [~] that is a directory: [~/Downloads] when it
    exists; else [~/downloads] when that exists; else [~] when it
    exists; else the working directory.  So its result is an existing
    directory whenever the home directory exists. *)
Theorem default_dir_exists (home cwd : string) (w : world) :
  (host_isdir w home = true ->
   host_isdir w (default_downloads_dir home cwd w) = true)
  ∧ (host_isdir w (path_join home "Downloads") = true ->
     default_downloads_dir home cwd w = path_join home "Downloads")
  ∧ (host_isdir w (path_join home "Downloads") = false ->
     host_isdir w (path_join home "downloads") = false ->
     host_isdir w home = false ->
     default_downloads_dir home cwd w = cwd)
  ∧ (host_isdir w (path_join home "Downloads") = false ->
     host_isdir w (path_join home "downloads") = true ->
     default_downloads_dir home cwd w = path_join home "downloads")
  ∧ (host_isdir w (path_join home "Downloads") = false ->
     host_isdir w (path_join home "downloads") = false ->
     host_isdir w home = true ->
     default_downloads_dir home cwd w = home).
Proof.
  unfold default_downloads_dir. cbn [List.find].
  split; [|split; [|split; [|split]]].
  - intros Hh.
    destruct (host_isdir w (path_join home "Downloads")) eqn:E1; [exact E1|].
    destruct (host_isdir w (path_join home "downloads")) eqn:E2; [exact E2|].
    now rewrite Hh.
  - now intros ->.
  - now intros -> -> ->.
  - now intros -> ->.
  - now intros -> -> ->.
Qed.

Lemma default_dir_exists_witness :
  default_downloads_dir "/home/user" "/tmp" Scenario.lowercase_home
  = "/home/user/downloads"
  ∧ host_isdir Scenario.lowercase_home
      (default_downloads_dir "/home/user" "/tmp" Scenario.lowercase_home) = true
  ∧ default_downloads_dir "/home/user" "/tmp" Sample.bare = "/home/user/Downloads"
  ∧ default_downloads_dir "/root" "/tmp" Sample.bare = "/tmp"
  ∧ default_downloads_dir "/home/user/Downloads" "/tmp" Sample.bare
    = "/home/user/Downloads".
Proof.
  destruct (default_dir_exists "/home/user" "/tmp" Scenario.lowercase_home)
    as (Hex & _ & _ & Hlow & _).
  destruct (default_dir_exists "/home/user" "/tmp" Sample.bare)
    as (_ & Hup & _).
  destruct (default_dir_exists "/root" "/tmp" Sample.bare)
    as (_ & _ & Hcwd & _).
  destruct (default_dir_exists "/home/user/Downloads" "/tmp" Sample.bare)
    as (_ & _ & _ & _ & Hhome).
  split; [apply Hlow; reflexivity|].
  split; [apply Hex; reflexivity|].
  split; [apply Hup; reflexivity|].
  split; [apply Hcwd; reflexivity | apply Hhome; reflexivity].
Defined.

(** ** What the worker keeps, for any relation closed under its steps *)

Section Frame.

Variable R : world -> world -> Prop.
Hypothesis R_refl : forall w, R w w.
Hypothesis R_trans : forall a b c, R a b -> R b c -> R a c.
Hypothesis R_put : forall e w, R w (set_queue (ui_update_queue w ++ [e]) w).
Hypothesis R_cancel : forall w, R w (on_cancel_download w).

Lemma keeps_ret {A} (a : A) : keeps R (mret a).
Proof. intros w. apply R_refl. Qed.

Lemma keeps_pure {A} (r : pyres A) : keeps R (lift_res r).
Proof. intros w. apply R_refl. Qed.

Lemma keeps_raise {A} (e : exn) : keeps R (@raise A e).
Proof. intros w. apply R_refl. Qed.

Lemma keeps_put (e : event) : keeps R (queue_put e).
Proof. intros w. apply R_put. Qed.

Lemma keeps_bind {A B} (m : M A) (k : A -> M B) :
  keeps R m -> (forall a, keeps R (k a)) -> keeps R (m ≫= k).
Proof.
  intros Hm Hk w. unfold mbind, M_bind, bind.
  specialize (Hm w). destruct (m w) as [w1 [a|e]]; simpl in *.
  - eapply R_trans; [exact Hm | apply Hk].
  - exact Hm.
Qed.

Lemma keeps_try_except {A} (body : M A) (handler : exn -> M A) :
  keeps R body -> (forall e, keeps R (handler e)) ->
  keeps R (try_except body handler).
Proof.
  intros Hb Hh w. unfold try_except.
  specialize (Hb w). destruct (body w) as [w1 [a|e]]; simpl in *.
  - exact Hb.
  - eapply R_trans; [exact Hb | apply Hh].
Qed.

Lemma keeps_progress_hook (d : status_dict) : keeps R (progress_hook d).
Proof.
  unfold progress_hook. apply keeps_bind; [intros w; apply R_refl|].
  intros c. destruct c; [apply keeps_raise|].
  destruct (status_is (st_status d) "downloading").
  - apply keeps_bind; [apply keeps_pure|]. intros percent.
    apply keeps_bind; [apply keeps_pure|]. intros text. apply keeps_put.
  - destruct (status_is (st_status d) "finished"); [|apply keeps_ret].
    apply keeps_bind; [apply keeps_put|]. intros _. apply keeps_put.
Qed.

Lemma keeps_call_hooks (hs : list hook_ref) (d : status_dict) :
  keeps R (call_hooks hs d).
Proof.
  induction hs as [|h hs IH]; cbn [call_hooks]; [apply keeps_ret|].
  apply keeps_bind; [|intros _; exact IH].
  destruct h. apply keeps_progress_hook.
Qed.

Lemma keeps_run_transfer (hs : list hook_ref) (steps : list transfer_step) :
  keeps R (run_transfer hs steps).
Proof.
  induction steps as [|[d|] steps IH]; cbn [run_transfer]; [apply keeps_ret| |].
  - apply keeps_bind; [apply keeps_call_hooks | intros _; exact IH].
  - apply keeps_bind; [|intros _; exact IH].
    intros w. apply R_cancel.
Qed.

Lemma keeps_make_ydl_opts (url out_dir out_type quality : string) :
  keeps R (make_ydl_opts url out_dir out_type quality).
Proof.
  intros w.
  destruct (make_ydl_opts_summary url out_dir out_type quality w)
    as (opts & notices & Hm & _ & _).
  rewrite Hm. cbn [fst]. clear Hm.
  induction notices as [|e notices IH] using rev_ind.
  - rewrite enqueue_nil. apply R_refl.
  - rewrite <- enqueue_enqueue. eapply R_trans; [exact IH | apply R_put].
Qed.

Lemma keeps_downloader_worker (ydl : collaborator)
    (url out_dir out_type quality : string) :
  keeps R (downloader_worker ydl url out_dir out_type quality).
Proof.
  unfold downloader_worker. apply keeps_try_except.
  - apply keeps_bind; [apply keeps_make_ydl_opts|]. intros opts.
    apply keeps_bind; [apply keeps_put|]. intros _.
    apply keeps_bind; [|intros _; apply keeps_put].
    unfold ydl_download.
    apply keeps_bind; [apply keeps_run_transfer | intros _; apply keeps_pure].
  - intros [msg|cls msg];
      (apply keeps_bind; [apply keeps_put | intros _; apply keeps_put]).
Qed.

End Frame.

Lemma prefix_refl (s : string) : String.prefix s s = true.
Proof.
  induction s as [|c s IH]; simpl; [reflexivity|].
  destruct (ascii_dec c c) as [_|Hne]; [exact IH | now elim Hne].
Qed.

Lemma prefix_trans (a b c : string) :
  String.prefix a b = true -> String.prefix b c = true ->
  String.prefix a c = true.
Proof.
  revert b c. induction a as [|x a IH]; intros b c.
  { intros _ _. now destruct c. }
  destruct b as [|y b]; [discriminate|].
  destruct c as [|z c]; [simpl; destruct (ascii_dec x y); discriminate|].
  simpl.
  destruct (ascii_dec x y) as [Exy|]; [|discriminate].
  destruct (ascii_dec y z) as [Eyz|]; [|discriminate].
  destruct (ascii_dec x z) as [_|Hne]; [apply IH | congruence].
Qed.

Lemma append_log_extends (text : string) (w : world) :
  log_extends w (append_log text w).
Proof.
  unfold log_extends, append_log. simpl.
  destruct (log_box (dpg w)) as [|c prev]; [now destruct text|].
  cbn [PyStr.truthy]. rewrite string_app_assoc. apply prefix_app.
Qed.

Lemma apply_event_extends (w : world) (e : event) :
  log_extends w (apply_event w e).
Proof.
  destruct e as [text|percent text|[|]]; cbn [apply_event].
  - apply append_log_extends.
  - apply prefix_refl.
  - apply (append_log_extends "All tasks completed." w).
  - apply prefix_refl.
Qed.

Lemma drain_extends (evs : list event) (w : world) : log_extends w (drain evs w).
Proof.
  revert w. induction evs as [|e evs IH]; intros w; [apply prefix_refl|].
  unfold log_extends in *. cbn [drain fold_left].
  eapply prefix_trans; [apply apply_event_extends | apply IH].
Qed.

(** X20.  The log box is append-only: whatever is in it stays, as a
    prefix of the new content, through every callback, through a pump
    over any queue, and through a whole worker run with any collaborator
    and any number of Cancel presses. *)
Theorem log_is_append_only (w : world) (now : pyfloat) (ydl : collaborator)
    (url out_dir out_type quality : string) (picked : option string) :
  log_extends w (on_start_download w)
  ∧ log_extends w (on_cancel_download w)
  ∧ log_extends w (on_pick_dir picked w)
  ∧ log_extends w (ui_pump now w)
  ∧ log_extends w (downloader_worker ydl url out_dir out_type quality w).1.
Proof.
  split; [|split; [|split; [|split]]].
  - unfold on_start_download.
    destruct (negb _); [apply append_log_extends|].
    destruct (negb _); [apply append_log_extends|].
    destruct (negb _); [apply append_log_extends|].
    apply prefix_refl.
  - apply (append_log_extends "Cancelling..." (set_cancel_event true w)).
  - unfold on_pick_dir. destruct picked as [path|]; [|apply prefix_refl].
    destruct (PyStr.truthy path); apply prefix_refl.
  - unfold ui_pump. destruct (PyFloat.ltb _ _); [apply prefix_refl|].
    apply (drain_extends (ui_update_queue w)
             (set_queue [] (set_last_pump_time now w))).
  - apply (keeps_downloader_worker log_extends).
    + intros w0. apply prefix_refl.
    + intros a b c. apply prefix_trans.
    + intros e w0. apply prefix_refl.
    + intros w0. apply (append_log_extends "Cancelling..." (set_cancel_event true w0)).
Qed.

Lemma worker_frame_kept (ydl : collaborator)
    (url out_dir out_type quality : string) (w : world) :
  worker_frame w (downloader_worker ydl url out_dir out_type quality w).1.
Proof.
  apply (keeps_downloader_worker worker_frame).
  - intros w0. repeat split.
  - intros a b c (H1 & H2 & H3 & H4) (H1' & H2' & H3' & H4').
    repeat split; congruence.
  - intros e w0. repeat split.
  - intros w0. repeat split.
Qed.

(** X21.  A worker run, with any collaborator, never starts a thread,
    never touches the thread record or the pump's clock, and leaves
    every widget value except the log box as it was: url, folder,
    combos, progress bar, overlay and both buttons. *)
Theorem worker_touches_only_queue_flag_log (ydl : collaborator)
    (url out_dir out_type quality : string) (w : world) :
  let w' := (downloader_worker ydl url out_dir out_type quality w).1 in
  started_threads w' = started_threads w
  ∧ download_thread w' = download_thread w
  ∧ last_pump_time w' = last_pump_time w
  ∧ url_input (dpg w') = url_input (dpg w)
  ∧ output_text (dpg w') = output_text (dpg w)
  ∧ type_combo (dpg w') = type_combo (dpg w)
  ∧ quality_combo (dpg w') = quality_combo (dpg w)
  ∧ progress_bar (dpg w') = progress_bar (dpg w)
  ∧ progress_bar_overlay (dpg w') = progress_bar_overlay (dpg w)
  ∧ start_btn_enabled (dpg w') = start_btn_enabled (dpg w)
  ∧ cancel_btn_enabled (dpg w') = cancel_btn_enabled (dpg w).
Proof.
  intros w'.
  destruct (worker_frame_kept ydl url out_dir out_type
              quality w) as (H1 & H2 & H3 & Hg).
  fold w' in H1, H2, H3, Hg.
  split; [exact H2|]. split; [exact H1|]. split; [exact H3|].
  unfold set_log_box in Hg. injection Hg as -> -> -> -> -> -> -> ->.
  repeat split.
Qed.

(** ** The pump *)

Lemma apply_event_only_widgets (w : world) (e : event) :
  apply_event w e = set_dpg (dpg (apply_event w e)) w.
Proof. destruct e as [text|percent text|[|]]; reflexivity. Qed.

Lemma drain_only_widgets (evs : list event) (w : world) :
  drain evs w = set_dpg (dpg (drain evs w)) w.
Proof.
  revert w. induction evs as [|e evs IH]; intros w; [now destruct w|].
  cbn [drain fold_left]. fold (drain evs (apply_event w e)).
  rewrite IH. rewrite (apply_event_only_widgets w e) at 2. reflexivity.
Qed.

Lemma apply_event_widgets_ext (w w' : world) (e : event) :
  dpg w = dpg w' -> dpg (apply_event w e) = dpg (apply_event w' e).
Proof.
  intros H. destruct e as [text|percent text|[|]]; cbn [apply_event];
    unfold append_log; cbn; now rewrite H.
Qed.

Lemma drain_widgets_ext (evs : list event) (w w' : world) :
  dpg w = dpg w' -> dpg (drain evs w) = dpg (drain evs w').
Proof.
  revert w w'. induction evs as [|e evs IH]; intros w w' H; [exact H|].
  cbn [drain fold_left]. apply IH. now apply apply_event_widgets_ext.
Qed.

Lemma ui_pump_due (now : pyfloat) (w : world) :
  pump_due now w ->
  ui_pump now w
  = World (host_which w) (host_isdir w) [] (download_thread w) (cancel_event w)
          now (started_threads w) (dpg (drain (ui_update_queue w) w)).
Proof.
  intros Hd. unfold ui_pump. rewrite Hd.
  change (fold_left apply_event
            (ui_update_queue (set_last_pump_time now w))
            (set_queue [] (set_last_pump_time now w)))
    with (drain (ui_update_queue w) (set_queue [] (set_last_pump_time now w))).
  rewrite drain_only_widgets.
  rewrite (drain_widgets_ext (ui_update_queue w)
             (set_queue [] (set_last_pump_time now w)) w eq_refl).
  reflexivity.
Qed.

(** X22.  A call of [ui_pump] within 0.15 s of the previous one leaves
    the whole state, the queue included, as it was: nothing is lost.  A
    call that is due empties the queue, stamps the clock with [now] and
    otherwise changes widgets only: the flag, the thread record and the
    started threads are not touched. *)
Theorem pump_throttled_or_drains (now : pyfloat) (w : world) :
  (PyFloat.ltb (PyFloat.sub now (last_pump_time w)) PyFloat.throttle = true ->
   ui_pump now w = w)
  ∧ (pump_due now w ->
     ui_pump now w
     = World (host_which w) (host_isdir w) [] (download_thread w) (cancel_event w)
             now (started_threads w) (dpg (drain (ui_update_queue w) w))).
Proof.
  split.
  - intros H. unfold ui_pump. now rewrite H.
  - apply ui_pump_due.
Qed.

Lemma pump_throttled_or_drains_witness :
  ui_pump Scenario.later (progress_hook Sample.quarter Sample.bare).1
  = World (host_which Sample.bare) (host_isdir Sample.bare) [] None false
          Scenario.later []
          (dpg (drain [Progress PyFloat.quarter "Downloading... 25.0%"]
                      Sample.bare)).
Proof.
  apply (pump_throttled_or_drains Scenario.later
           (progress_hook Sample.quarter Sample.bare).1).
  reflexivity.
Defined.

(** X23.  The tick boundaries do not matter: events drained by one due
    pump followed by events enqueued later and drained by the next due
    pump leave the widgets exactly as if all of them had been drained in
    arrival order by a single pump; nothing is dropped or reordered. *)
Theorem two_ticks_as_one (t1 t2 : pyfloat) (later_events : list event) (w : world) :
  pump_due t1 w ->
  PyFloat.ltb (PyFloat.sub t2 t1) PyFloat.throttle = false ->
  dpg (ui_pump t2 (enqueue later_events (ui_pump t1 w)))
  = dpg (drain (ui_update_queue w ++ later_events) w)
  ∧ ui_update_queue (ui_pump t2 (enqueue later_events (ui_pump t1 w))) = [].
Proof.
  intros H1 H2. rewrite (ui_pump_due t1 w H1).
  rewrite ui_pump_due by exact H2.
  cbn [dpg ui_update_queue enqueue set_queue app].
  split; [|reflexivity].
  unfold drain at 3. rewrite fold_left_app.
  apply drain_widgets_ext. reflexivity.
Qed.

Lemma two_ticks_as_one_witness :
  dpg (ui_pump Scenario.much_later
         (enqueue [Done true]
            (ui_pump Scenario.later (progress_hook Sample.quarter Sample.bare).1)))
  = dpg (drain ([Progress PyFloat.quarter "Downloading... 25.0%"] ++ [Done true])
               (progress_hook Sample.quarter Sample.bare).1)
  ∧ ui_update_queue
      (ui_pump Scenario.much_later
         (enqueue [Done true]
            (ui_pump Scenario.later (progress_hook Sample.quarter Sample.bare).1)))
    = [].
Proof.
  apply (two_ticks_as_one Scenario.later Scenario.much_later [Done true]
           (progress_hook Sample.quarter Sample.bare).1); reflexivity.
Defined.

Lemma drain_buttons_without_done (evs : list event) (w : world) :
  existsb is_done evs = false ->
  start_btn_enabled (dpg (drain evs w)) = start_btn_enabled (dpg w)
  ∧ cancel_btn_enabled (dpg (drain evs w)) = cancel_btn_enabled (dpg w).
Proof.
  revert w. induction evs as [|e evs IH]; intros w H; [now split|].
  cbn [existsb] in H. apply orb_false_elim in H as [He Hevs].
  change (drain (e :: evs) w) with (drain evs (apply_event w e)).
  destruct (IH (apply_event w e) Hevs) as [-> ->].
  destruct e as [text|percent text|ok]; [| |discriminate]; now split.
Qed.

Lemma drain_buttons_after_done (evs : list event) (w : world) :
  existsb is_done evs = true ->
  start_btn_enabled (dpg (drain evs w)) = true
  ∧ cancel_btn_enabled (dpg (drain evs w)) = false.
Proof.
  revert w. induction evs as [|e evs IH]; intros w H; [discriminate|].
  change (drain (e :: evs) w) with (drain evs (apply_event w e)).
  destruct (existsb is_done evs) eqn:Hevs; [now apply IH|].
  cbn [existsb] in H. rewrite Hevs, orb_false_r in H.
  destruct (drain_buttons_without_done evs (apply_event w e) Hevs) as [-> ->].
  destruct e as [text|percent text|[|]]; try discriminate; now split.
Qed.

(** X24.  Draining any run of events that contains a [Done], wherever it
    stands and whatever its flag, leaves Start enabled and Cancel
    disabled; draining a run without a [Done] leaves both buttons as
    they were. *)
Theorem done_reenables_start (evs : list event) (w : world) :
  (existsb is_done evs = true ->
   start_btn_enabled (dpg (drain evs w)) = true
   ∧ cancel_btn_enabled (dpg (drain evs w)) = false)
  ∧ (existsb is_done evs = false ->
     start_btn_enabled (dpg (drain evs w)) = start_btn_enabled (dpg w)
     ∧ cancel_btn_enabled (dpg (drain evs w)) = cancel_btn_enabled (dpg w)).
Proof.
  split; [apply drain_buttons_after_done | apply drain_buttons_without_done].
Qed.

Lemma done_reenables_start_witness :
  start_btn_enabled
    (dpg (drain [Log "Cancelled: Cancelled by user"; Done false;
                 Progress PyFloat.one "late"]
                (on_start_download Scenario.ready))) = true
  ∧ cancel_btn_enabled
      (dpg (drain [Log "Cancelled: Cancelled by user"; Done false;
                   Progress PyFloat.one "late"]
                  (on_start_download Scenario.ready))) = false.
Proof.
  apply (done_reenables_start
           [Log "Cancelled: Cancelled by user"; Done false;
            Progress PyFloat.one "late"] (on_start_download Scenario.ready)).
  reflexivity.
Defined.

Lemma worker_leaves_done (ydl : collaborator)
    (url out_dir out_type quality : string) (w : world) :
  existsb is_done
    (ui_update_queue (downloader_worker ydl url out_dir out_type quality w).1)
  = true.
Proof.
  rewrite downloader_worker_unfold.
  destruct (worker_fetch ydl url out_dir out_type quality w)
    as [w1 [[]|[msg|cls msg]]]; cbn [fst ui_update_queue set_queue];
    rewrite existsb_app; apply orb_true_r.
Qed.

(** X25.  The whole cycle: after a valid Start, whatever the
    collaborator does during the worker run (callbacks, Cancel presses,
    return or any exception), the next due pump finds a [Done], enables
    Start again, disables Cancel and leaves the queue empty. *)
Theorem download_cycle_reenables_start (ydl : collaborator) (now : pyfloat) (w : world) :
  request_valid w ->
  let a := request_args w in
  let started := on_start_download w in
  let finished :=
    (downloader_worker ydl (arg_url a) (arg_out_dir a) (arg_out_type a)
                       (arg_quality a) started).1 in
  pump_due now finished ->
  start_btn_enabled (dpg started) = false
  ∧ cancel_btn_enabled (dpg started) = true
  ∧ start_btn_enabled (dpg (ui_pump now finished)) = true
  ∧ cancel_btn_enabled (dpg (ui_pump now finished)) = false
  ∧ ui_update_queue (ui_pump now finished) = [].
Proof.
  intros Hv a started finished Hdue.
  assert (Hs : started = on_start_download w) by reflexivity.
  rewrite (on_start_download_valid w Hv) in Hs.
  split; [now rewrite Hs|]. split; [now rewrite Hs|].
  rewrite (ui_pump_due now finished Hdue). cbn [dpg ui_update_queue].
  destruct (drain_buttons_after_done (ui_update_queue finished) finished
              (worker_leaves_done ydl _ _ _ _ started)) as [H1 H2].
  now rewrite H1, H2.
Qed.

Lemma download_cycle_reenables_start_witness :
  let finished :=
    (downloader_worker Scenario.cancelled "https://www.youtube.com/watch?v=abc"
                       "/home/user/Downloads" "Video (MP4)" "Best"
                       (on_start_download Scenario.ready)).1 in
  start_btn_enabled (dpg (on_start_download Scenario.ready)) = false
  ∧ cancel_btn_enabled (dpg (on_start_download Scenario.ready)) = true
  ∧ start_btn_enabled (dpg (ui_pump Scenario.later finished)) = true
  ∧ cancel_btn_enabled (dpg (ui_pump Scenario.later finished)) = false
  ∧ ui_update_queue (ui_pump Scenario.later finished) = [].
Proof.
  apply (download_cycle_reenables_start Scenario.cancelled Scenario.later
           Scenario.ready).
  - repeat split.
  - reflexivity.
Defined.

(** X26.  Exactly one of Start and Cancel is enabled, and every
    operation of the module keeps it so: the three callbacks, one drained
    event, a whole pump, and a whole worker run. *)
Theorem buttons_stay_exclusive (w : world) (now : pyfloat) (e : event)
    (picked : option string) (ydl : collaborator)
    (url out_dir out_type quality : string) :
  buttons_exclusive w ->
  buttons_exclusive (on_start_download w)
  ∧ buttons_exclusive (on_cancel_download w)
  ∧ buttons_exclusive (on_pick_dir picked w)
  ∧ buttons_exclusive (apply_event w e)
  ∧ buttons_exclusive (ui_pump now w)
  ∧ buttons_exclusive (downloader_worker ydl url out_dir out_type quality w).1.
Proof.
  intros H. unfold buttons_exclusive in *.
  assert (Hev : forall (w0 : world) (e0 : event),
            start_btn_enabled (dpg w0) = negb (cancel_btn_enabled (dpg w0)) ->
            start_btn_enabled (dpg (apply_event w0 e0))
            = negb (cancel_btn_enabled (dpg (apply_event w0 e0)))).
  { intros w0 e0 H0. destruct e0 as [text|percent text|[|]]; try exact H0;
      reflexivity. }
  split; [|split; [|split; [|split; [|split]]]].
  - unfold on_start_download.
    destruct (PyStr.truthy (PyStr.strip (url_input (dpg w)))); [|exact H].
    destruct (PyStr.truthy (PyStr.strip (output_text (dpg w)))); [|exact H].
    destruct (host_isdir w (PyStr.strip (output_text (dpg w)))); [|exact H].
    reflexivity.
  - exact H.
  - unfold on_pick_dir. destruct picked as [path|]; [|exact H].
    destruct (PyStr.truthy path); exact H.
  - now apply Hev.
  - unfold ui_pump. destruct (PyFloat.ltb _ _); [exact H|].
    assert (Hdr : forall (evs : list event) (w0 : world),
              start_btn_enabled (dpg w0) = negb (cancel_btn_enabled (dpg w0)) ->
              start_btn_enabled (dpg (fold_left apply_event evs w0))
              = negb (cancel_btn_enabled (dpg (fold_left apply_event evs w0)))).
    { induction evs as [|e0 evs IH]; intros w0 H0; [exact H0|].
      cbn [fold_left]. now apply IH, Hev. }
    now apply Hdr.
  - destruct (worker_frame_kept ydl url out_dir out_type
                quality w) as (_ & _ & _ & Hg).
    apply (f_equal start_btn_enabled) in Hg as Hs.
    apply (f_equal cancel_btn_enabled) in Hg as Hc.
    cbn in Hs, Hc. now rewrite Hs, Hc.
Qed.

Lemma buttons_stay_exclusive_witness :
  buttons_exclusive (on_start_download Scenario.ready)
  ∧ buttons_exclusive (on_cancel_download Scenario.ready)
  ∧ buttons_exclusive (on_pick_dir (Some "/tmp") Scenario.ready)
  ∧ buttons_exclusive (apply_event Scenario.ready (Done true))
  ∧ buttons_exclusive (ui_pump Scenario.later Scenario.ready)
  ∧ buttons_exclusive
      (downloader_worker Scenario.smooth "u" "/home/user/Downloads"
                         "Video (MP4)" "Best" Scenario.ready).1.
Proof.
  apply (buttons_stay_exclusive Scenario.ready). reflexivity.
Defined.
